(** * split_tilemap.py: slicing a tilemap into a 4x4 grid of named tiles

    A shallow embedding of [src/split_tilemap.py].  The script is a straight
    line of effects (create a directory, decode an image, crop and save
    sixteen tiles, print progress), so it is embedded as a program in a small
    state-and-exception monad over an explicit world: the directories, the
    files, the paths that refuse writing, and the console.

    The imaging library is not part of the script.  Its raster type and its
    [crop] are modelled below; its codec (what [Image.open] decodes and what
    [save] encodes) is a parameter of the development. *)

From stdpp Require Import gmap strings list fin_maps pretty.

Local Open Scope Z_scope.

(** ** Raster images *)

Section Raster.
Context {Pixel : Type}.

(** An image in memory: its size and its rows of pixels, top row first. *)
Record Image := mkImage {
  width : Z;
  height : Z;
  pixels : list (list Pixel)
}.

(** The [size] attribute: the pair (width, height). *)
Definition size (img : Image) : Z * Z := (width img, height img).

(** The pixel buffer agrees with the declared size. *)
Definition image_ok (img : Image) : Prop :=
  0 ≤ width img ∧ 0 ≤ height img ∧
  length (pixels img) = Z.to_nat (height img) ∧
  Forall (λ r, length r = Z.to_nat (width img)) (pixels img).

(** Column [x] of row [y], when (x, y) lies inside the image. *)
Definition pixel_at (img : Image) (x y : Z) : option Pixel :=
  if bool_decide (0 ≤ x < width img ∧ 0 ≤ y < height img)
  then row ← pixels img !! Z.to_nat y; row !! Z.to_nat x
  else None.

(** The image of size [w] x [h] whose pixel (x, y) is [f x y]. *)
Definition raster (w h : Z) (f : Z → Z → Pixel) : Image :=
  mkImage w h ((λ y, (λ x, f x y) <$> seqZ 0 w) <$> seqZ 0 h).

Variable blank : Pixel.

(** [img.crop((left, top, right, bottom))]: a new image of size
    (right - left) x (bottom - top), negative extents clipped to 0, whose
    pixel (x, y) is the source pixel (left + x, top + y); positions outside
    the source are filled with the blank pixel. *)
Definition crop (img : Image) (box : Z * Z * Z * Z) : Image :=
  let '(x0, y0, x1, y1) := box in
  raster (Z.max 0 (x1 - x0)) (Z.max 0 (y1 - y0))
    (λ x y, default blank (pixel_at img (x0 + x) (y0 + y))).

(** [Image.new]: a blank canvas. *)
Definition new_image (w h : Z) : Image :=
  raster (Z.max 0 w) (Z.max 0 h) (λ _ _, blank).

(** [canvas.paste(tile, (ox, oy))]: the canvas with the tile laid over it,
    the tile's top-left corner at (ox, oy). *)
Definition paste (canvas tile : Image) (ox oy : Z) : Image :=
  raster (width canvas) (height canvas)
    (λ x y, match pixel_at tile (x - ox) (y - oy) with
            | Some p => p
            | None => default blank (pixel_at canvas x y)
            end).
End Raster.

Arguments Image Pixel : clear implicits.

(** ** The world the script runs in *)

Inductive Error :=
  | FileNotFoundError
  | UnidentifiedImageError
  | FileExistsError
  | PermissionError
  | EncoderError
  | IndexError.

Inductive Outcome (A : Type) :=
  | Done (a : A)
  | Raised (e : Error).
Arguments Done {A} a.
Arguments Raised {A} e.

Section World.
Context {Bytes : Type}.

Record World := mkWorld {
  dirs : gset string;          (* directories that exist *)
  files : gmap string Bytes;   (* regular files and their contents *)
  locked : gset string;        (* paths that may not be created or written *)
  stdout : list string         (* what each [print] call wrote, oldest first *)
}.

(** A computation runs on a world and either returns or raises; either way
    the effects it had so far stay in the world. *)
Definition Run (A : Type) : Type := World → Outcome A * World.

#[export] Instance run_ret : MRet Run := λ A a w, (Done a, w).
#[export] Instance run_bind : MBind Run := λ A B k m w,
  match m w with
  | (Done a, w') => k a w'
  | (Raised e, w') => (Raised e, w')
  end.

Definition raise {A} (e : Error) : Run A := λ w, (Raised e, w).

(** [os.makedirs(d, exist_ok=True)]. *)
Definition makedirs (d : string) : Run () := λ w,
  if bool_decide (d ∈ dirs w) then (Done (), w)
  else if bool_decide (is_Some (files w !! d)) then (Raised FileExistsError, w)
  else if bool_decide (d ∈ locked w) then (Raised PermissionError, w)
  else (Done (), mkWorld ({[d]} ∪ dirs w) (files w) (locked w) (stdout w)).

(** [print(s)]. *)
Definition print (s : string) : Run () := λ w,
  (Done (), mkWorld (dirs w) (files w) (locked w) (stdout w ++ [s])).

(** A [for] loop over [xs] whose body updates the local state [s]. *)
Fixpoint for_each {A S} (xs : list A) (body : A → S → Run S) (s : S) : Run S :=
  match xs with
  | [] => mret s
  | x :: xs' => s' ← body x s; for_each xs' body s'
  end.
End World.

Arguments World Bytes : clear implicits.
Arguments Run Bytes A : clear implicits.

(** ** The script *)

(** Python's [range(n)] and floor division [//]. *)
Definition range (n : Z) : list Z := seqZ 0 n.
Notation "x // y" := (Z.div x y) (at level 40, left associativity) : Z_scope.

(** [os.path.join(a, b)] on POSIX paths. *)
Definition path_join (a b : string) : string :=
  if String.prefix "/" b then b
  else if bool_decide (a = "") then b
  else if String.prefix "/" (String.rev a) then a +:+ b
  else a +:+ "/" +:+ b.

Definition tilemap_path : string :=
  "/Users/majling/openrouter-images/image-2025-10-18T14-08-11-931Z.png".
Definition output_dir : string :=
  "/Users/majling/Development/its-just-fine/v2/public/assets/textures/ground".

(** Tile names for each position in the 4x4 grid. *)
Definition tile_names : list (list string) :=
  [ ["brick_wall"; "cracked_stone"; "bloodstained"; "dirt_gravel"];
    ["mossy_stone"; "rune_circle"; "dark_vortex"; "bones"];
    ["lava_cracks"; "frozen_ice"; "wooden_planks"; "metal_grate"];
    ["spike_trap"; "toxic_slime"; "corrupted_stone"; "dark_concrete"] ].

Definition newline : string := String (Ascii.ascii_of_nat 10) "".

Section Script.
Context {Pixel Bytes : Type}.
Variable blank : Pixel.

(** The codec of the imaging library: what a file's bytes decode to, and
    the PNG bytes of an image, when the encoder accepts it. *)
Variable decode : Bytes → option (Image Pixel).
Variable encode : Image Pixel → option Bytes.

Local Abbreviation Run := (Run Bytes).
Local Abbreviation World := (World Bytes).

(** [Image.open(p)]. *)
Definition Image_open (p : string) : Run (Image Pixel) := λ w,
  match files w !! p with
  | None => (Raised FileNotFoundError, w)
  | Some b =>
      match decode b with
      | None => (Raised UnidentifiedImageError, w)
      | Some img => (Done img, w)
      end
  end.

(** [tile.save(p)]: refused on a locked path or by the encoder, and then
    the files are left as they were; otherwise the file at [p] is created
    or replaced. *)
Definition save (tile : Image Pixel) (p : string) : Run () := λ w,
  if bool_decide (p ∈ locked w) then (Raised PermissionError, w)
  else match encode tile with
       | None => (Raised EncoderError, w)
       | Some b => (Done (), mkWorld (dirs w) (<[p:=b]> (files w)) (locked w) (stdout w))
       end.

(** [xs[i]] on a Python list, for an index that is not negative. *)
Definition index {A} (xs : list A) (i : Z) : Run A :=
  match xs !! Z.to_nat i with
  | Some x => mret x
  | None => raise IndexError
  end.

Definition main : Run () :=
  (* Create output directory if it doesn't exist *)
  makedirs output_dir;;
  (* Load the image *)
  img ← Image_open tilemap_path;
  let '(width, height) := size img in
  (* Calculate tile dimensions (4x4 grid) *)
  let tile_width := width // 4 in
  let tile_height := height // 4 in
  print ("Image size: " +:+ pretty width +:+ "x" +:+ pretty height);;
  print ("Tile size: " +:+ pretty tile_width +:+ "x" +:+ pretty tile_height);;
  (* Split and save tiles *)
  tile_index ←
    for_each (range 4) (λ row tile_index,
      for_each (range 4) (λ col tile_index,
        (* Calculate crop box *)
        let left := col * tile_width in
        let top := row * tile_height in
        let right := left + tile_width in
        let bottom := top + tile_height in
        (* Crop the tile *)
        let tile := crop blank img (left, top, right, bottom) in
        (* Save the tile *)
        names_row ← index tile_names row;
        tile_name ← index names_row col;
        let output_path := path_join output_dir ("tile_" +:+ tile_name +:+ ".png") in
        save tile output_path;;
        let tile_index := tile_index + 1 in
        print ("Saved: " +:+ output_path);;
        mret tile_index) tile_index) 0;
  print (newline +:+ "Successfully split tilemap into " +:+ pretty tile_index +:+ " tiles!").

(** *** The script's values, cell by cell

    What the loop body computes at cell (row, col), as pure functions of
    the decoded image; [main_eq] below shows that [main] runs to exactly
    these. *)

(** The sixteen cells in the order the nested loops visit them. *)
Definition cells : list (Z * Z) :=
  row ← range 4; col ← range 4; [(row, col)].

(** The locals [left], [top], [right], [bottom] of the loop body. *)
Definition crop_box (tile_width tile_height row col : Z) : Z * Z * Z * Z :=
  let left := col * tile_width in
  let top := row * tile_height in
  let right := left + tile_width in
  let bottom := top + tile_height in
  (left, top, right, bottom).

(** The local [tile]. *)
Definition tile_at (img : Image Pixel) (row col : Z) : Image Pixel :=
  crop blank img (crop_box (width img // 4) (height img // 4) row col).

(** [tile_names[row][col]], when both indices are in range. *)
Definition tile_name (row col : Z) : option string :=
  names_row ← tile_names !! Z.to_nat row; names_row !! Z.to_nat col.

(** The local [output_path] for a tile name. *)
Definition output_path (name : string) : string :=
  path_join output_dir ("tile_" +:+ name +:+ ".png").

(** The paths of the sixteen tiles, in the order of the name table. *)
Definition output_paths : list string := output_path <$> concat tile_names.

(** One turn of the loop body on a world whose locked paths are [L]: the
    error it raises, or the file it writes. *)
Definition cell_write (L : gset string) (img : Image Pixel) (c : Z * Z)
    : Error + string * Bytes :=
  match tile_name c.1 c.2 with
  | None => inl IndexError
  | Some name =>
      let p := output_path name in
      if bool_decide (p ∈ L) then inl PermissionError
      else match encode (tile_at img c.1 c.2) with
           | None => inl EncoderError
           | Some b => inr (p, b)
           end
  end.

(** The turns of the loop over the cells [cs]: the files written, in
    order, up to the first error if there is one. *)
Fixpoint writes_of (L : gset string) (img : Image Pixel) (cs : list (Z * Z))
    : list (string * Bytes) * option Error :=
  match cs with
  | [] => ([], None)
  | c :: cs' =>
      match cell_write L img c with
      | inl e => ([], Some e)
      | inr pb => let '(ws, r) := writes_of L img cs' in (pb :: ws, r)
      end
  end.

(** The world after one tile was saved and reported. *)
Definition saved (w : World) (pb : string * Bytes) : World :=
  mkWorld (dirs w) (<[pb.1 := pb.2]> (files w)) (locked w)
          (stdout w ++ ["Saved: " +:+ pb.1]).

(** The world once the directory exists and both size lines are printed. *)
Definition started (w : World) (img : Image Pixel) : World :=
  mkWorld ({[output_dir]} ∪ dirs w) (files w) (locked w)
    (stdout w ++
       ["Image size: " +:+ pretty (width img) +:+ "x" +:+ pretty (height img);
        "Tile size: " +:+ pretty (width img // 4) +:+ "x"
                      +:+ pretty (height img // 4)]).

(** The world after the closing line is printed. *)
Definition finished (w : World) (tile_index : Z) : World :=
  mkWorld (dirs w) (files w) (locked w)
    (stdout w ++
       [newline +:+ "Successfully split tilemap into " +:+ pretty tile_index
                +:+ " tiles!"]).

(** The directory can be created, or is there already. *)
Definition can_mkdir (w : World) : Prop :=
  output_dir ∈ dirs w ∨ (files w !! output_dir = None ∧ output_dir ∉ locked w).

(** *** Conditions on the world *)

(** The tilemap file is there and decodes to [img]. *)
Definition loads (w : World) (img : Image Pixel) : Prop :=
  ∃ b, files w !! tilemap_path = Some b ∧ decode b = Some img.

(** The save of the tile of cell (row, col) goes through: its path is not
    locked and the encoder accepts the tile. *)
Definition save_allowed (w : World) (img : Image Pixel) (row col : Z) : Prop :=
  ∃ name, tile_name row col = Some name ∧
          (output_path name ∉ locked w) ∧
          is_Some (encode (tile_at img row col)).

(** The save of the tile of cell (row, col) fails. *)
Definition save_refused (w : World) (img : Image Pixel) (row col : Z) : Prop :=
  ∃ name, tile_name row col = Some name ∧
          ((output_path name ∈ locked w) ∨ encode (tile_at img row col) = None).

(** The file of cell (row, col) holds the encoding of [tile]. *)
Definition holds_tile (w : World) (row col : Z) (tile : Image Pixel) : Prop :=
  ∃ name b, tile_name row col = Some name ∧
            files w !! output_path name = Some b ∧
            encode tile = Some b.

(** The path the tile of a cell goes to. *)
Definition path_of (c : Z * Z) : string :=
  output_path (default "" (tile_name c.1 c.2)).

(** A map of files after the writes [ws], in order. *)
Definition written (m : gmap string Bytes) (ws : list (string * Bytes))
    : gmap string Bytes :=
  foldl (λ m pb, <[pb.1 := pb.2]> m) m ws.

(** *** Reading the output back

    The observations the properties of the output are stated with. *)

(** The tile stored for cell (row, col), decoded. *)
Definition read_tile (w : World) (row col : Z) : option (Image Pixel) :=
  name ← tile_name row col; b ← files w !! output_path name; decode b.

(** The tiles of the output directory pasted back onto a blank canvas of
    size [W] x [H] in row-major order, the tile of cell (row, col) at
    offset (col * W/4, row * H/4). *)
Definition reassemble (w : World) (W H : Z) : option (Image Pixel) :=
  foldl (λ canvas '(row, col),
           cv ← canvas;
           tile ← read_tile w row col;
           Some (paste blank cv tile (col * (W // 4)) (row * (H // 4))))
        (Some (new_image blank W H)) cells.

(** The tiles of the cells [cs], as cropped from [img], pasted onto a
    canvas, each at the offset of its cell. *)
Definition paste_tiles (img cv : Image Pixel) (cs : list (Z * Z)) : Image Pixel :=
  foldl (λ cv c, paste blank cv (tile_at img c.1 c.2)
                       (c.2 * (width img // 4)) (c.1 * (height img // 4)))
        cv cs.

(** Pixel (0, 0) of the file tile_<name>.png, an image of size
    [tw] x [th], is pixel (x, y) of [img]. *)
Definition origin_shows (w : World) (name : string) (tw th : Z)
    (img : Image Pixel) (x y : Z) : Prop :=
  ∃ tile b, files w !! output_path name = Some b ∧ encode tile = Some b
            ∧ size tile = (tw, th)
            ∧ pixel_at tile 0 0 = pixel_at img x y.
End Script.

(** ** A codec and inputs to run the script on *)

(** The raw codec: a file holds a raster as it is. *)
Definition raw_decode (b : Image Z) : option (Image Z) :=
  if bool_decide (image_ok b) then Some b else None.
Definition raw_encode (img : Image Z) : option (Image Z) := Some img.

(** A [w] x [h] image whose pixels are all different. *)
Definition ramp (w h : Z) : Image Z := raster w h (λ x y, 1000 * y + x).

(** A world with nothing in it but the tilemap. *)
Definition world_with (img : Image Z) : World (Image Z) :=
  mkWorld ∅ {[ tilemap_path := img ]} ∅ [].

(** The same world with some paths locked. *)
Definition locked_world (img : Image Z) (L : list string) : World (Image Z) :=
  mkWorld ∅ {[ tilemap_path := img ]} (list_to_set L) [].

Definition run_raw (w : World (Image Z)) : Outcome () * World (Image Z) :=
  main 0 raw_decode raw_encode w.

Definition world8 : World (Image Z) := world_with (ramp 8 8).
Definition world9 : World (Image Z) := world_with (ramp 9 8).
Definition world1024 : World (Image Z) := world_with (ramp 1024 1024).

(** A world without the tilemap. *)
Definition bare_world : World (Image Z) := mkWorld ∅ ∅ ∅ [].

(** A world where tile_bones.png, the eighth tile, may not be written. *)
Definition bones_locked : World (Image Z) :=
  locked_world (ramp 8 8) [output_path "bones"].


(** A world that holds the tilemap, the output directory and an old,
    different tile_bones.png. *)
Definition stale_world : World (Image Z) :=
  mkWorld {[ output_dir ]}
    (<[ output_path "bones" := ramp 1 1 ]> {[ tilemap_path := ramp 8 8 ]})
    ∅ ["earlier output"].

(** ** Proof steps *)

(** The facts about the script are stated with the codec left out of sight;
    these unfold the definitions themselves. *)
Ltac unfold_main := unfold main.
Ltac unfold_cell_write := unfold cell_write.
Ltac unfold_cell_write_in H := unfold cell_write in H.
Ltac unfold_reassemble := unfold reassemble, paste_tiles, read_tile.

(** ** Facts about rasters *)

Section RasterFacts.
Context {Pixel : Type} (blank : Pixel).
Implicit Types (img : Image Pixel) (x y : Z).

Lemma pixel_at_raster w h (f : Z → Z → Pixel) x y :
  0 ≤ x < w → 0 ≤ y < h → pixel_at (raster w h f) x y = Some (f x y).
Proof.
  intros Hx Hy. unfold pixel_at, raster; simpl.
  rewrite bool_decide_eq_true_2 by lia.
  rewrite list_lookup_fmap, lookup_seqZ_lt by lia; simpl.
  rewrite list_lookup_fmap, lookup_seqZ_lt by lia; simpl.
  do 2 f_equal; lia.
Qed.

Lemma pixel_at_outside img x y :
  ¬ (0 ≤ x < width img ∧ 0 ≤ y < height img) → pixel_at img x y = None.
Proof. intros H. unfold pixel_at. by rewrite bool_decide_eq_false_2. Qed.

Lemma raster_ok w h (f : Z → Z → Pixel) :
  0 ≤ w → 0 ≤ h → image_ok (raster w h f).
Proof.
  intros Hw Hh. unfold image_ok, raster; simpl.
  repeat split; try done.
  - by rewrite length_fmap, length_seqZ.
  - apply Forall_fmap, Forall_forall. intros y _; simpl.
    by rewrite length_fmap, length_seqZ.
Qed.

(** Inside a well-formed image every position holds a pixel. *)
Lemma pixel_at_inside img x y :
  image_ok img → 0 ≤ x < width img → 0 ≤ y < height img →
  is_Some (pixel_at img x y).
Proof.
  intros (_ & _ & Hlen & Hrows) Hx Hy. unfold pixel_at.
  rewrite bool_decide_eq_true_2 by lia.
  destruct (lookup_lt_is_Some_2 (pixels img) (Z.to_nat y)) as [row Hrow]; [lia|].
  rewrite Hrow; simpl.
  apply lookup_lt_is_Some_2.
  rewrite (Forall_lookup_1 _ _ _ _ Hrows Hrow). lia.
Qed.

(** Two well-formed images of one size that agree at every position are
    the same image. *)
Lemma image_ext (a b : Image Pixel) :
  image_ok a → image_ok b →
  width a = width b → height a = height b →
  (∀ x y, 0 ≤ x < width a → 0 ≤ y < height a →
          pixel_at a x y = pixel_at b x y) →
  a = b.
Proof.
  destruct a as [wa ha pa], b as [wb hb pb]; simpl.
  intros (Hwa & Hha & Hla & Hra) (_ & _ & Hlb & Hrb) <- <- Hpx; simpl in *.
  f_equal. apply list_eq; intros i.
  destruct (decide (i < Z.to_nat ha)%nat) as [Hi|Hi].
  - destruct (lookup_lt_is_Some_2 pa i) as [ra Ha]; [lia|].
    destruct (lookup_lt_is_Some_2 pb i) as [rb Hb]; [lia|].
    rewrite Ha, Hb; f_equal. apply list_eq; intros j.
    pose proof (Forall_lookup_1 _ _ _ _ Hra Ha) as Hlra.
    pose proof (Forall_lookup_1 _ _ _ _ Hrb Hb) as Hlrb.
    simpl in Hlra, Hlrb.
    destruct (decide (j < Z.to_nat wa)%nat) as [Hj|Hj].
    + specialize (Hpx (Z.of_nat j) (Z.of_nat i)).
      unfold pixel_at in Hpx; simpl in Hpx.
      rewrite bool_decide_eq_true_2, !Nat2Z.id, Ha, Hb in Hpx by lia.
      apply Hpx; lia.
    + rewrite !lookup_ge_None_2; [done | lia | lia].
  - rewrite !lookup_ge_None_2; [done | lia | lia].
Qed.

Lemma crop_width img x0 y0 x1 y1 :
  width (crop blank img (x0, y0, x1, y1)) = Z.max 0 (x1 - x0).
Proof. done. Qed.

Lemma crop_height img x0 y0 x1 y1 :
  height (crop blank img (x0, y0, x1, y1)) = Z.max 0 (y1 - y0).
Proof. done. Qed.

Lemma crop_ok img box : image_ok (crop blank img box).
Proof. destruct box as [[[x0 y0] x1] y1]. apply raster_ok; lia. Qed.

(** A pixel of a crop is the source pixel at the same place, shifted. *)
Lemma pixel_at_crop img x0 y0 x1 y1 x y :
  image_ok img →
  0 ≤ x0 → 0 ≤ y0 → x1 ≤ width img → y1 ≤ height img →
  0 ≤ x < x1 - x0 → 0 ≤ y < y1 - y0 →
  pixel_at (crop blank img (x0, y0, x1, y1)) x y = pixel_at img (x0 + x) (y0 + y).
Proof.
  intros Hok ? ? ? ? Hx Hy. unfold crop.
  rewrite pixel_at_raster by lia.
  destruct (pixel_at_inside img (x0 + x) (y0 + y)) as [p Hp]; [done|lia|lia|].
  by rewrite Hp.
Qed.

Lemma paste_ok (canvas tile : Image Pixel) ox oy :
  image_ok canvas → image_ok (paste blank canvas tile ox oy).
Proof. intros (? & ? & _). by apply raster_ok. Qed.

Lemma pixel_at_paste (canvas tile : Image Pixel) ox oy x y :
  image_ok canvas →
  0 ≤ x < width canvas → 0 ≤ y < height canvas →
  pixel_at (paste blank canvas tile ox oy) x y =
    match pixel_at tile (x - ox) (y - oy) with
    | Some p => Some p
    | None => pixel_at canvas x y
    end.
Proof.
  intros Hok Hx Hy. unfold paste. rewrite pixel_at_raster by done.
  destruct (pixel_at tile _ _); [done|].
  destruct (pixel_at_inside canvas x y) as [p Hp]; [done..|].
  by rewrite Hp.
Qed.
End RasterFacts.

(** ** Facts about the script *)

Section ScriptFacts.
Context {Pixel Bytes : Type}.
Variable blank : Pixel.
Variable decode : Bytes → option (Image Pixel).
Variable encode : Image Pixel → option Bytes.

Local Abbreviation Run := (Run Bytes).
Local Abbreviation World := (World Bytes).
Local Abbreviation main := (main blank decode encode).
Local Abbreviation writes_of := (writes_of blank encode).
Local Abbreviation cell_write := (cell_write blank encode).
Local Abbreviation tile_at := (tile_at blank).
Local Abbreviation loads := (loads decode).
Local Abbreviation save_allowed := (save_allowed blank encode).
Local Abbreviation save_refused := (save_refused blank encode).
Local Abbreviation holds_tile := (holds_tile encode).
Local Abbreviation read_tile := (read_tile decode).
Local Abbreviation reassemble := (reassemble blank decode).
Local Abbreviation paste_tiles := (paste_tiles blank).
Local Abbreviation origin_shows := (origin_shows encode).

Implicit Types (w : World) (img : Image Pixel) (ws : list (string * Bytes)).

(** *** Loops *)

Lemma run_bind_eq {A B} (m : Run A) (k : A → Run B) w :
  (m ≫= k) w = match m w with
               | (Done a, w') => k a w'
               | (Raised e, w') => (Raised e, w')
               end.
Proof. done. Qed.

Lemma for_each_row {A B S} (x : A) (ys : list B) (body : A → B → S → Run S) s w :
  for_each (y ← ys; [(x, y)]) (λ c, body c.1 c.2) s w = for_each ys (body x) s w.
Proof.
  revert s w. induction ys as [|y ys IH]; intros s w; [done|]; simpl.
  unfold mbind, run_bind. destruct (body x y s w) as [[s'|e] w']; [apply IH|done].
Qed.

Lemma for_each_app {A S} (xs ys : list A) (body : A → S → Run S) s w :
  for_each (xs ++ ys) body s w = (s' ← for_each xs body s; for_each ys body s') w.
Proof.
  revert s w. induction xs as [|x xs IH]; intros s w; simpl.
  - done.
  - unfold mbind, run_bind in *. destruct (body x s w) as [[s'|e] w']; auto.
Qed.

(** Two nested loops are one loop over the pairs, outer index first. *)
Lemma for_each_nested {A B S} (xs : list A) (ys : list B)
    (body : A → B → S → Run S) s w :
  for_each xs (λ x s, for_each ys (body x) s) s w
  = for_each (x ← xs; y ← ys; [(x, y)]) (λ c, body c.1 c.2) s w.
Proof.
  revert s w. induction xs as [|x xs IH]; intros s w; [done|].
  change ((x :: xs) ≫= _) with ((y ← ys; [(x, y)]) ++ (x ← xs; y ← ys; [(x, y)])).
  rewrite for_each_app. cbn [for_each].
  rewrite !run_bind_eq, (for_each_row x ys body).
  destruct (for_each ys (body x) s w) as [[s'|e] w']; [apply IH|done].
Qed.

(** A loop whose every turn is a [cell_write] runs as [writes_of] says. *)
Lemma for_each_cells img (body : Z * Z → Z → Run Z) cs tile_index w :
  (∀ c n w, body c n w =
     match cell_write (locked w) img c with
     | inl e => (Raised e, w)
     | inr pb => (Done (n + 1), saved w pb)
     end) →
  for_each cs body tile_index w =
    (match (writes_of (locked w) img cs).2 with
     | None => Done (tile_index + Z.of_nat (length cs))
     | Some e => Raised e
     end, foldl saved w (writes_of (locked w) img cs).1).
Proof.
  intros Hbody. revert tile_index w.
  induction cs as [|c cs IH]; intros n w; simpl.
  - unfold mret, run_ret. do 2 f_equal. lia.
  - unfold mbind, run_bind. rewrite Hbody.
    destruct (cell_write (locked w) img c) as [e|pb]; [done|].
    rewrite IH. change (locked (saved w pb)) with (locked w).
    destruct (writes_of (locked w) img cs) as [ws [e|]]; simpl; [done|].
    do 2 f_equal. lia.
Qed.

(** *** The run of [main] *)

Lemma print_eq s w :
  print s w = (Done (), mkWorld (dirs w) (files w) (locked w) (stdout w ++ [s])).
Proof. done. Qed.

Lemma makedirs_ok w :
  can_mkdir w →
  makedirs output_dir w =
    (Done (), mkWorld ({[output_dir]} ∪ dirs w) (files w) (locked w) (stdout w)).
Proof.
  intros [Hin|[Hfile Hlock]]; unfold makedirs.
  - rewrite bool_decide_eq_true_2 by done. destruct w as [d f l o]; simpl in *.
    do 2 f_equal. set_solver.
  - case_bool_decide as Hd.
    + destruct w as [d f l o]; simpl in *. do 2 f_equal. set_solver.
    + rewrite Hfile, bool_decide_eq_false_2 by (by intros [? ?]).
      by rewrite bool_decide_eq_false_2.
Qed.

Lemma makedirs_refused w :
  ¬ can_mkdir w → ∃ e, makedirs output_dir w = (Raised e, w).
Proof.
  intros Hno. unfold makedirs, can_mkdir in *.
  case_bool_decide; [tauto|].
  case_bool_decide; [by eexists|].
  case_bool_decide; [by eexists|].
  destruct Hno. right. split; [|done].
  destruct (files w !! output_dir) eqn:E; [|done]. by destruct H0.
Qed.

(** The loop body is one [cell_write]. *)
Lemma body_eq img (c : Z * Z) (n : Z) w :
  (let row := c.1 in let col := c.2 in
   let tile_width := width img // 4 in
   let tile_height := height img // 4 in
   let left := col * tile_width in
   let top := row * tile_height in
   let right := left + tile_width in
   let bottom := top + tile_height in
   let tile := crop blank img (left, top, right, bottom) in
   names_row ← index tile_names row;
   tile_name ← index names_row col;
   let output_path := path_join output_dir ("tile_" +:+ tile_name +:+ ".png") in
   save encode tile output_path;;
   let tile_index := n + 1 in
   print ("Saved: " +:+ output_path);;
   mret tile_index) w
  = match cell_write (locked w) img c with
    | inl e => (Raised e, w)
    | inr pb => (Done (n + 1), saved w pb)
    end.
Proof.
  destruct c as [row col]; cbn zeta; cbn [fst snd].
  unfold cell_write, tile_name; cbn [fst snd].
  rewrite run_bind_eq. unfold index at 1.
  destruct (tile_names !! Z.to_nat row) as [names_row|]; [|done].
  cbn [mbind option_bind]. unfold mret at 1, run_ret at 1.
  rewrite run_bind_eq. unfold index at 1.
  destruct (names_row !! Z.to_nat col) as [name|]; [|done].
  unfold mret at 1, run_ret at 1. rewrite run_bind_eq.
  unfold save at 1. fold (output_path name).
  case_bool_decide; [done|].
  unfold tile_at, crop_box.
  destruct (encode _) as [b|]; done.
Qed.

(** What [main] does once the directory is there and the tilemap decodes:
    the size lines, then the writes of the sixteen cells up to the first
    refusal, then the closing line if there was none. *)
Lemma main_run w b img :
  can_mkdir w →
  files w !! tilemap_path = Some b → decode b = Some img →
  main w =
    match (writes_of (locked w) img cells).2 with
    | Some e => (Raised e, foldl saved (started w img) (writes_of (locked w) img cells).1)
    | None =>
        (Done (), finished (foldl saved (started w img)
                              (writes_of (locked w) img cells).1) 16)
    end.
Proof.
  intros Hdir Hfile Hdec. unfold_main.
  rewrite run_bind_eq, makedirs_ok by done.
  rewrite run_bind_eq. unfold Image_open at 1. cbn [files]. rewrite Hfile, Hdec.
  unfold size. cbn iota.
  rewrite run_bind_eq, print_eq. cbn [dirs files locked stdout].
  rewrite run_bind_eq, print_eq. cbn [dirs files locked stdout].
  rewrite <- app_assoc. cbn [app]. fold (started w img).
  rewrite run_bind_eq, (for_each_nested (range 4) (range 4)).
  fold cells.
  rewrite (for_each_cells img) by (intros c n w0; apply (body_eq img c n w0)).
  change (locked (started w img)) with (locked w).
  by destruct (writes_of (locked w) img cells).2.
Qed.

Lemma main_no_dir w :
  ¬ can_mkdir w → ∃ e, main w = (Raised e, w).
Proof.
  intros Hno. destruct (makedirs_refused w Hno) as [e He].
  exists e. unfold_main. by rewrite run_bind_eq, He.
Qed.

Lemma main_no_image w :
  can_mkdir w →
  files w !! tilemap_path = None
  ∨ (∃ b, files w !! tilemap_path = Some b ∧ decode b = None) →
  ∃ e, main w =
    (Raised e, mkWorld ({[output_dir]} ∪ dirs w) (files w) (locked w) (stdout w)).
Proof.
  intros Hdir Hsrc. unfold_main.
  rewrite run_bind_eq, makedirs_ok by done.
  rewrite run_bind_eq. unfold Image_open at 1. cbn [files].
  destruct Hsrc as [->|(b & -> & ->)]; by eexists.
Qed.

(** A run that ends well had a directory to write to and an image to
    read, and no save was refused. *)
Lemma main_Done_inv w w' :
  main w = (Done (), w') →
  can_mkdir w ∧
  ∃ img, loads w img ∧
         (writes_of (locked w) img cells).2 = None ∧
         w' = finished (foldl saved (started w img)
                          (writes_of (locked w) img cells).1) 16.
Proof.
  intros Hrun.
  assert (can_mkdir w) as Hdir.
  { unfold can_mkdir.
    destruct (decide (output_dir ∈ dirs w)) as [|Hd]; [by left|].
    destruct (files w !! output_dir) as [b|] eqn:Hf.
    - destruct (main_no_dir w) as [e He]; [|congruence].
      unfold can_mkdir; rewrite Hf. intros [?|[? _]]; done.
    - destruct (decide (output_dir ∈ locked w)) as [Hl|Hl]; [|by right].
      destruct (main_no_dir w) as [e He]; [|congruence].
      unfold can_mkdir. intros [?|[_ ?]]; done. }
  split; [done|].
  destruct (files w !! tilemap_path) as [b|] eqn:Hfile.
  - destruct (decode b) as [img|] eqn:Hdec.
    + exists img. split; [by exists b|].
      rewrite (main_run w b img) in Hrun by done.
      destruct (writes_of (locked w) img cells).2; [done|].
      split; [done|congruence].
    + destruct (main_no_image w) as [e He]; [done|right; eauto|congruence].
  - destruct (main_no_image w) as [e He]; [done|by left|congruence].
Qed.

(** *** The writes of the loop *)

Lemma cell_write_inr L img c p b :
  cell_write L img c = inr (p, b) →
  ∃ name, tile_name c.1 c.2 = Some name ∧ p = output_path name ∧
          (p ∉ L) ∧ encode (tile_at img c.1 c.2) = Some b.
Proof.
  unfold_cell_write.
  destruct (tile_name c.1 c.2) as [name|]; [|done].
  case_bool_decide as Hl; [done|].
  destruct (encode _) as [b'|]; [|done].
  intros [= <- <-]. by exists name.
Qed.

Lemma cell_write_path L img c pb :
  cell_write L img c = inr pb → pb.1 = path_of c.
Proof.
  destruct pb as [p b]. intros (name & Hn & -> & _)%cell_write_inr.
  unfold path_of. by rewrite Hn.
Qed.

(** [writes_of] lists the writes of the cells before the first refusal,
    and says which cell was refused. *)
Lemma writes_of_spec L img cs :
  Forall2 (λ c pb, cell_write L img c = inr pb)
          (take (length (writes_of L img cs).1) cs) (writes_of L img cs).1
  ∧ match (writes_of L img cs).2 with
    | None => length (writes_of L img cs).1 = length cs
    | Some e => ∃ c, cs !! length (writes_of L img cs).1 = Some c
                     ∧ cell_write L img c = inl e
    end.
Proof.
  induction cs as [|c cs [IH1 IH2]]; simpl.
  - split; [constructor|done].
  - destruct (cell_write L img c) as [e|pb] eqn:Hc; simpl.
    + split; [constructor|]. by exists c.
    + destruct (writes_of L img cs) as [ws r]; simpl in *.
      split; [by constructor|]. destruct r; [done|]. by f_equal.
Qed.

Lemma writes_paths L img cs ws :
  Forall2 (λ c pb, cell_write L img c = inr pb) cs ws → ws.*1 = path_of <$> cs.
Proof.
  induction 1 as [|c pb cs ws Hc _ IH]; [done|]; simpl.
  f_equal; [by eapply cell_write_path|done].
Qed.

(** *** The world after the writes *)

Lemma files_saved w ws : files (foldl saved w ws) = written (files w) ws.
Proof. revert w. induction ws as [|pb ws IH]; intros w; [done|]. simpl. by rewrite IH. Qed.

Lemma dirs_saved w ws : dirs (foldl saved w ws) = dirs w.
Proof. revert w. induction ws as [|pb ws IH]; intros w; [done|]. simpl. by rewrite IH. Qed.

Lemma locked_saved w ws : locked (foldl saved w ws) = locked w.
Proof. revert w. induction ws as [|pb ws IH]; intros w; [done|]. simpl. by rewrite IH. Qed.

Lemma stdout_saved w ws :
  stdout (foldl saved w ws) = stdout w ++ ((λ p, "Saved: " +:+ p) <$> (ws.*1)).
Proof.
  revert w. induction ws as [|pb ws IH]; intros w; simpl.
  - by rewrite app_nil_r.
  - rewrite IH; simpl. by rewrite <- app_assoc.
Qed.

Lemma written_notin (m : gmap string Bytes) ws p :
  p ∉ ws.*1 → written m ws !! p = m !! p.
Proof.
  revert m. induction ws as [|[q b] ws IH]; intros m Hp; [done|]; simpl in *.
  apply not_elem_of_cons in Hp as [Hne Hp].
  unfold written in *; simpl. rewrite IH by done. by rewrite lookup_insert_ne.
Qed.

Lemma written_in (m : gmap string Bytes) ws p b :
  NoDup ws.*1 → (p, b) ∈ ws → written m ws !! p = Some b.
Proof.
  revert m. induction ws as [|[q c] ws IH]; intros m Hnd Hin; simpl in *.
  - by apply elem_of_nil in Hin.
  - apply NoDup_cons in Hnd as [Hq Hnd].
    apply elem_of_cons in Hin as [[= <- <-]|Hin].
    + unfold written; simpl. fold (written (<[p:=b]> m) ws).
      rewrite written_notin by done. apply lookup_insert_eq.
    + by apply IH.
Qed.

Lemma dom_written (m : gmap string Bytes) ws :
  dom (written m ws) = dom m ∪ list_to_set ws.*1.
Proof.
  revert m. induction ws as [|[q c] ws IH]; intros m; simpl.
  - unfold written; simpl. set_solver.
  - unfold written in *; simpl. rewrite IH, dom_insert_L. set_solver.
Qed.

(** Writing the same files again changes nothing. *)
Lemma written_twice (m : gmap string Bytes) ws :
  NoDup ws.*1 → written (written m ws) ws = written m ws.
Proof.
  intros Hnd. apply map_eq; intros p.
  destruct (decide (p ∈ ws.*1)) as [Hin|Hout].
  - apply list_elem_of_fmap in Hin as ([q b] & -> & Hin); simpl.
    by rewrite !(written_in _ ws q b).
  - by rewrite !written_notin.
Qed.

(** *** The name table *)

Lemma cells_paths : path_of <$> cells = output_paths.
Proof. reflexivity. Qed.

Lemma output_paths_length : length output_paths = 16%nat.
Proof. reflexivity. Qed.

Lemma output_paths_NoDup : NoDup output_paths.
Proof. refine (bool_decide_unpack _ _). by vm_compute. Qed.

Lemma tilemap_not_output : tilemap_path ∉ output_paths.
Proof. refine (bool_decide_unpack _ _). by vm_compute. Qed.

(** Cell (row, col) is visited at turn 4 * row + col, and has a name. *)
Lemma cells_lookup row col :
  0 ≤ row < 4 → 0 ≤ col < 4 →
  cells !! Z.to_nat (4 * row + col) = Some (row, col)
  ∧ ∃ name, tile_name row col = Some name
            ∧ output_paths !! Z.to_nat (4 * row + col) = Some (output_path name).
Proof.
  intros Hr Hc.
  assert (row = 0 ∨ row = 1 ∨ row = 2 ∨ row = 3) as Hrow by lia.
  assert (col = 0 ∨ col = 1 ∨ col = 2 ∨ col = 3) as Hcol by lia.
  destruct Hrow as [-> | [-> | [-> | ->]]], Hcol as [-> | [-> | [-> | ->]]];
    (split; [reflexivity|eexists; split; reflexivity]).
Qed.

Lemma cells_lookup_inv k row col :
  cells !! k = Some (row, col) →
  0 ≤ row < 4 ∧ 0 ≤ col < 4 ∧ k = Z.to_nat (4 * row + col).
Proof.
  intros Hk.
  assert (k < 16)%nat as Hlt by (apply lookup_lt_Some in Hk; exact Hk).
  do 16 (destruct k as [|k]; [injection Hk as <- <-; lia|]). lia.
Qed.

(** *** Runs that end well *)

Lemma loads_unique w img img' :
  loads w img → loads w img' → img = img'.
Proof. intros (b & Hb & Hd) (b' & Hb' & Hd'). congruence. Qed.

(** The world a good run ends in. *)
Lemma main_Done w w' img :
  loads w img → main w = (Done (), w') →
  ∃ ws, writes_of (locked w) img cells = (ws, None)
        ∧ Forall2 (λ c pb, cell_write (locked w) img c = inr pb) cells ws
        ∧ ws.*1 = output_paths
        ∧ w' = finished (foldl saved (started w img) ws) 16.
Proof.
  intros Hload (_ & img' & Hload' & Hnone & ->)%main_Done_inv.
  rewrite <- (loads_unique w img img') in * by done.
  destruct (writes_of_spec (locked w) img cells) as [Hall Hlen].
  rewrite Hnone in Hlen. rewrite Hlen, firstn_all in Hall.
  destruct (writes_of (locked w) img cells) as [ws r]; simpl in *; subst r.
  exists ws. split; [done|]. split; [done|]. split; [|done].
  by rewrite (writes_paths _ _ _ _ Hall).
Qed.

(** When nothing stands in the way the run ends well. *)
Lemma main_allowed w img :
  can_mkdir w → loads w img →
  (∀ row col, 0 ≤ row < 4 → 0 ≤ col < 4 → save_allowed w img row col) →
  ∃ w', main w = (Done (), w').
Proof.
  intros Hdir (b & Hb & Hd) Hall. rewrite (main_run w b img) by done.
  destruct (writes_of_spec (locked w) img cells) as [_ Hlen].
  destruct (writes_of (locked w) img cells).2 as [e|]; [|by eexists].
  destruct Hlen as ([row col] & Hc & He).
  apply cells_lookup_inv in Hc as (Hr & Hc & _).
  destruct (Hall row col Hr Hc) as (name & Hn & Hl & [bs Hbs]).
  unfold_cell_write_in He; simpl in He.
  rewrite Hn, bool_decide_eq_false_2, Hbs in He by done. done.
Qed.

(** After a good run the file of every cell holds the encoding of the
    tile cropped for it. *)
Lemma written_cell L img ws m row col :
  Forall2 (λ c pb, cell_write L img c = inr pb) cells ws →
  ws.*1 = output_paths →
  0 ≤ row < 4 → 0 ≤ col < 4 →
  ∃ name b, tile_name row col = Some name
            ∧ written m ws !! output_path name = Some b
            ∧ encode (tile_at img row col) = Some b.
Proof.
  intros Hall Hpaths Hr Hc.
  destruct (cells_lookup row col Hr Hc) as (Hcell & _).
  destruct (Forall2_lookup_l _ _ _ _ _ Hall Hcell) as ([p b] & Hws & Hw).
  apply cell_write_inr in Hw as (name & Hn & -> & _ & Henc); simpl in *.
  exists name, b. repeat split; [done| |done].
  apply written_in; [rewrite Hpaths; apply output_paths_NoDup|].
  by eapply list_elem_of_lookup_2.
Qed.

Lemma main_Done_holds w w' img row col :
  loads w img → main w = (Done (), w') →
  0 ≤ row < 4 → 0 ≤ col < 4 →
  holds_tile w' row col (tile_at img row col).
Proof.
  intros Hload Hrun Hr Hc.
  destruct (main_Done w w' img Hload Hrun) as (ws & Hwr & Hall & Hpaths & ->).
  destruct (written_cell _ _ _ (files w) _ _ Hall Hpaths Hr Hc) as (name & b & ? & ? & ?).
  exists name, b. repeat split; [done| |done].
  unfold finished; simpl. by rewrite files_saved.
Qed.

Lemma main_Done_tile_line w w' img :
  loads w img → main w = (Done (), w') →
  ("Tile size: " +:+ pretty (width img // 4) +:+ "x" +:+ pretty (height img // 4))
    ∈ stdout w'.
Proof.
  intros Hload Hrun.
  destruct (main_Done w w' img Hload Hrun) as (ws & _ & _ & _ & ->).
  unfold finished; simpl. rewrite stdout_saved; simpl.
  rewrite !elem_of_app. left; left; right. apply elem_of_cons; right.
  by apply list_elem_of_singleton.
Qed.

Lemma main_Done_dom w w' img :
  loads w img → main w = (Done (), w') →
  dom (files w') = dom (files w) ∪ list_to_set output_paths.
Proof.
  intros Hload Hrun.
  destruct (main_Done w w' img Hload Hrun) as (ws & _ & _ & Hpaths & ->).
  unfold finished; simpl. rewrite files_saved; simpl.
  by rewrite dom_written, Hpaths.
Qed.

(** *** The tiles *)

Lemma crop_box_eq tw th row col :
  crop_box tw th row col = (col * tw, row * th, col * tw + tw, row * th + th).
Proof. done. Qed.

Lemma tile_at_size img row col :
  0 ≤ width img → 0 ≤ height img →
  size (tile_at img row col) = (width img // 4, height img // 4).
Proof.
  intros Hw Hh. unfold tile_at, size. rewrite crop_box_eq, crop_width, crop_height.
  pose proof (Z.div_pos (width img) 4). pose proof (Z.div_pos (height img) 4).
  f_equal; lia.
Qed.

Lemma tile_at_width img row col :
  0 ≤ width img → width (tile_at img row col) = width img // 4.
Proof.
  intros Hw. unfold tile_at. rewrite crop_box_eq, crop_width.
  pose proof (Z.div_pos (width img) 4). lia.
Qed.

Lemma tile_at_height img row col :
  0 ≤ height img → height (tile_at img row col) = height img // 4.
Proof.
  intros Hh. unfold tile_at. rewrite crop_box_eq, crop_height.
  pose proof (Z.div_pos (height img) 4). lia.
Qed.

(** Every pixel of a tile is the source pixel at the same place of its
    cell, and that place is inside the source. *)
Lemma pixel_at_tile img row col x y :
  image_ok img → 0 ≤ row < 4 → 0 ≤ col < 4 →
  0 ≤ x < width img // 4 → 0 ≤ y < height img // 4 →
  pixel_at (tile_at img row col) x y
  = pixel_at img (col * (width img // 4) + x) (row * (height img // 4) + y)
  ∧ 0 ≤ col * (width img // 4) + x < 4 * (width img // 4)
  ∧ 0 ≤ row * (height img // 4) + y < 4 * (height img // 4).
Proof.
  intros Hok Hr Hc Hx Hy.
  pose proof Hok as (Hw & Hh & _).
  pose proof (Z.mul_div_le (width img) 4). pose proof (Z.mul_div_le (height img) 4).
  unfold tile_at. rewrite crop_box_eq.
  split; [apply pixel_at_crop; try done; nia|nia].
Qed.

(** *** Properties of the script *)

(** The decoder of the imaging library only returns well-formed images. *)
Hypothesis decode_ok : ∀ b img, decode b = Some img → image_ok img.

Lemma loads_ok w img : loads w img → image_ok img.
Proof. intros (b & _ & Hd). by eapply decode_ok. Qed.

(** C1. On a run that ends well over a source image of width W and height
    H, the tile size the script computes and reports is floor(W/4) x
    floor(H/4), and for every cell (row, col) of the 4x4 grid the file of
    that cell holds the encoding of the crop of the source with the box
    (col*tw, row*th, col*tw + tw, row*th + th). *)
Theorem C1_crop_rectangles w w' img row col :
  loads w img → main w = (Done (), w') →
  0 ≤ row < 4 → 0 ≤ col < 4 →
  let tile_width := width img // 4 in
  let tile_height := height img // 4 in
  (4 * tile_width ≤ width img < 4 * tile_width + 4)
  ∧ (4 * tile_height ≤ height img < 4 * tile_height + 4)
  ∧ ("Tile size: " +:+ pretty tile_width +:+ "x" +:+ pretty tile_height) ∈ stdout w'
  ∧ holds_tile w' row col
      (crop blank img (col * tile_width, row * tile_height,
                       col * tile_width + tile_width,
                       row * tile_height + tile_height)).
Proof.
  intros Hload Hrun Hr Hc tile_width tile_height.
  pose proof (Z.mul_div_le (width img) 4). pose proof (Z.mul_div_le (height img) 4).
  pose proof (Z.mul_succ_div_gt (width img) 4).
  pose proof (Z.mul_succ_div_gt (height img) 4).
  split; [subst tile_width; lia|]. split; [subst tile_height; lia|].
  split; [by apply (main_Done_tile_line w w' img)|].
  by apply (main_Done_holds w w' img row col).
Qed.

(** C2. When W and H are both divisible by 4, a run that ends well has
    written exactly sixteen files: their paths are tile_<name>.png in the
    output directory for the sixteen names of the table, all different;
    no other file was created or changed; and each of them holds the
    encoding of an image of size (W/4) x (H/4). *)
Theorem C2_sixteen_files w w' img :
  loads w img → main w = (Done (), w') →
  width img `mod` 4 = 0 → height img `mod` 4 = 0 →
  output_paths = (λ name, output_dir +:+ "/tile_" +:+ name +:+ ".png") <$> concat tile_names
  ∧ length (concat tile_names) = 16%nat
  ∧ NoDup output_paths
  ∧ dom (files w') = dom (files w) ∪ list_to_set output_paths
  ∧ (∀ p, p ∉ output_paths → files w' !! p = files w !! p)
  ∧ (∀ p, p ∈ output_paths →
       ∃ tile b, files w' !! p = Some b ∧ encode tile = Some b
                 ∧ 4 * width tile = width img ∧ 4 * height tile = height img).
Proof.
  intros Hload Hrun HW HH.
  pose proof (loads_ok w img Hload) as (HW0 & HH0 & _).
  destruct (main_Done w w' img Hload Hrun) as (ws & Hwr & Hall & Hpaths & ->).
  unfold finished; simpl. rewrite files_saved; simpl.
  split; [reflexivity|]. split; [reflexivity|].
  split; [apply output_paths_NoDup|].
  split; [by rewrite dom_written, Hpaths|].
  split; [intros p Hp; apply written_notin; by rewrite Hpaths|].
  intros p Hp. rewrite <- Hpaths in Hp.
  apply list_elem_of_fmap in Hp as ([q b] & -> & Hin); simpl.
  apply list_elem_of_lookup in Hin as [k Hk].
  destruct (Forall2_lookup_r _ _ _ _ _ Hall Hk) as ([row col] & Hcell & Hw).
  apply cell_write_inr in Hw as (name & _ & _ & _ & Henc); simpl in Henc.
  exists (tile_at img row col), b.
  split; [apply written_in; [rewrite Hpaths; apply output_paths_NoDup|]|].
  { by eapply list_elem_of_lookup_2. }
  split; [done|].
  unfold tile_at. rewrite crop_box_eq, crop_width, crop_height.
  pose proof (Z.div_mod (width img) 4 ltac:(lia)).
  pose proof (Z.div_mod (height img) 4 ltac:(lia)).
  lia.
Qed.

(** C9. On a run that ends well the script prints, in this order: the
    image size, the tile size, one "Saved: <path>" line for each of the
    sixteen tiles in row-major order of the cells, and the closing line
    with the count 16 (which [print] starts with a line break). *)
Theorem C9_console w w' img :
  loads w img → main w = (Done (), w') →
  stdout w' =
    stdout w
    ++ ["Image size: " +:+ pretty (width img) +:+ "x" +:+ pretty (height img);
        "Tile size: " +:+ pretty (width img // 4) +:+ "x" +:+ pretty (height img // 4)]
    ++ ((λ c, "Saved: " +:+ path_of c) <$> cells)
    ++ [newline +:+ "Successfully split tilemap into 16 tiles!"]
  ∧ length cells = 16%nat
  ∧ cells = [(0,0); (0,1); (0,2); (0,3); (1,0); (1,1); (1,2); (1,3);
             (2,0); (2,1); (2,2); (2,3); (3,0); (3,1); (3,2); (3,3)].
Proof.
  intros Hload Hrun.
  destruct (main_Done w w' img Hload Hrun) as (ws & Hwr & Hall & Hpaths & ->).
  split; [|by split].
  unfold finished; simpl. rewrite stdout_saved, Hpaths, <- cells_paths; simpl stdout.
  rewrite <- list_fmap_compose, <- !app_assoc. done.
Qed.

(** C10. For a source image of width W >= 0 and height H >= 0 and a cell
    (row, col) of the 4x4 grid, the crop box lies inside the image:
    0 <= left, 0 <= top, right = (col+1) * floor(W/4) <= W and
    bottom = (row+1) * floor(H/4) <= H; and in a well-formed image every
    position the crop reads holds a pixel. *)
Theorem C10_crop_in_bounds img row col :
  0 ≤ width img → 0 ≤ height img →
  0 ≤ row < 4 → 0 ≤ col < 4 →
  ∃ left top right bottom,
    crop_box (width img // 4) (height img // 4) row col = (left, top, right, bottom)
    ∧ 0 ≤ left ∧ 0 ≤ top
    ∧ right = (col + 1) * (width img // 4) ∧ right ≤ width img
    ∧ bottom = (row + 1) * (height img // 4) ∧ bottom ≤ height img
    ∧ (image_ok img →
       ∀ x y, 0 ≤ x < right - left → 0 ≤ y < bottom - top →
              is_Some (pixel_at img (left + x) (top + y))).
Proof.
  intros HW HH Hr Hc.
  pose proof (Z.mul_div_le (width img) 4). pose proof (Z.mul_div_le (height img) 4).
  pose proof (Z.div_pos (width img) 4). pose proof (Z.div_pos (height img) 4).
  rewrite crop_box_eq. do 4 eexists. split; [reflexivity|].
  repeat split; try nia.
  intros Hok x y Hx Hy. apply pixel_at_inside; [done|nia|nia].
Qed.



Lemma save_refused_inl w img row col :
  save_refused w img row col → ∃ e, cell_write (locked w) img (row, col) = inl e.
Proof.
  intros (name & Hn & Hwhy). unfold_cell_write; simpl. rewrite Hn.
  case_bool_decide; [by eexists|].
  destruct Hwhy as [?| ->]; [done|by eexists].
Qed.

Lemma save_allowed_inr w img row col :
  save_allowed w img row col → ∃ pb, cell_write (locked w) img (row, col) = inr pb.
Proof.
  intros (name & Hn & Hl & [b Hb]). unfold_cell_write; simpl.
  rewrite Hn, bool_decide_eq_false_2, Hb by done. by eexists.
Qed.

(** C8. If the save of the tile of the k-th cell (row, col) in row-major
    order is refused while the saves of the cells before it go through,
    the run ends in an error at that cell: the files of the k cells before
    it hold their tiles, no other file was created or changed, and the
    console shows the two size lines and the k "Saved" lines, with no line
    for a later cell and no closing line. *)
Theorem C8_stops_at_refused_save w img k row col :
  can_mkdir w → loads w img →
  cells !! k = Some (row, col) →
  (∀ j r c, (j < k)%nat → cells !! j = Some (r, c) → save_allowed w img r c) →
  save_refused w img row col →
  ∃ e w', main w = (Raised e, w')
    ∧ (∀ j r c, (j < k)%nat → cells !! j = Some (r, c) →
         holds_tile w' r c (tile_at img r c))
    ∧ (∀ p, p ∉ take k output_paths → files w' !! p = files w !! p)
    ∧ stdout w' = stdout (started w img)
                  ++ ((λ p, "Saved: " +:+ p) <$> take k output_paths).
Proof.
  intros Hdir Hload Hk Hprev Hfail.
  destruct Hload as (b & Hb & Hd). rewrite (main_run w b img) by done.
  destruct (writes_of_spec (locked w) img cells) as [Hall Hend].
  apply save_refused_inl in Hfail as [e0 He0].
  set (ws := (writes_of (locked w) img cells).1) in *.
  assert (length ws = k ∧ ∃ e, (writes_of (locked w) img cells).2 = Some e)
    as [Hlen [e He]].
  { destruct (writes_of (locked w) img cells).2 as [e|].
    - split; [|by eexists]. destruct Hend as ([r c] & Hc & He).
      destruct (Nat.lt_trichotomy (length ws) k) as [Hlt|[Heq|Hgt]]; [|done|].
      + destruct (save_allowed_inr w img r c) as [pb Hpb]; [by eapply Hprev|].
        congruence.
      + assert (take (length ws) cells !! k = Some (row, col)) as Hin
          by (by rewrite lookup_take_lt).
        destruct (Forall2_lookup_l _ _ _ _ _ Hall Hin) as (pb & _ & Hpb).
        congruence.
    - rewrite Hend, firstn_all in Hall.
      destruct (Forall2_lookup_l _ _ _ _ _ Hall Hk) as (pb & _ & Hpb).
      congruence. }
  rewrite He. rewrite Hlen in Hall.
  assert (ws.*1 = take k output_paths) as Hpaths.
  { by rewrite (writes_paths _ _ _ _ Hall), <- cells_paths, fmap_take. }
  assert (NoDup (ws.*1)) as Hnd.
  { rewrite Hpaths.
    exact (sublist_NoDup _ _ output_paths_NoDup (sublist_take _ k)). }
  eexists _, _. split; [reflexivity|].
  rewrite files_saved, stdout_saved, Hpaths. simpl files.
  split; [|split; [|done]].
  - intros j r c Hj Hcell.
    assert (take k cells !! j = Some (r, c)) as Hin by (by rewrite lookup_take_lt).
    destruct (Forall2_lookup_l _ _ _ _ _ Hall Hin) as ([p bs] & Hws & Hw).
    apply cell_write_inr in Hw as (name & Hn & -> & _ & Henc); cbn [fst snd] in Hn, Henc.
    exists name, bs. repeat split; [done| |done].
    rewrite files_saved. apply written_in; [done|]. by eapply list_elem_of_lookup_2.
  - intros p Hp. apply written_notin. by rewrite Hpaths.
Qed.

(** C4. Running the script again on the world a good run left behind ends
    well again and leaves every file with the bytes it had: the second run
    overwrites each tile with identical bytes and touches nothing else. *)
Theorem C4_second_run w w1 :
  main w = (Done (), w1) →
  ∃ w2, main w1 = (Done (), w2) ∧ files w2 = files w1 ∧ dirs w2 = dirs w1.
Proof.
  clear decode_ok. intros Hrun.
  pose proof Hrun as (Hdir & img & Hload & _)%main_Done_inv.
  destruct (main_Done w w1 img Hload Hrun) as (ws & Hwr & Hall & Hpaths & ->).
  destruct Hload as (b & Hb & Hd).
  set (w0 := foldl saved (started w img) ws).
  assert (files w0 = written (files w) ws) as Hfiles
    by (unfold w0; by rewrite files_saved).
  assert (dirs w0 = {[output_dir]} ∪ dirs w) as Hdirs
    by (unfold w0; by rewrite dirs_saved).
  assert (locked w0 = locked w) as Hlocked
    by (unfold w0; by rewrite locked_saved).
  assert (NoDup (ws.*1)) as Hnd by (rewrite Hpaths; apply output_paths_NoDup).
  change (files (finished w0 16)) with (files w0).
  change (dirs (finished w0 16)) with (dirs w0).
  rewrite (main_run (finished w0 16) b img).
  - change (locked (finished w0 16)) with (locked w0).
    rewrite Hlocked, Hwr; cbn [fst snd]. eexists; split; [reflexivity|].
    change (files (finished ?x _)) with (files x).
    change (dirs (finished ?x _)) with (dirs x).
    rewrite files_saved, dirs_saved.
    change (files (started ?x _)) with (files x).
    change (dirs (started ?x _)) with ({[output_dir]} ∪ dirs x).
    change (files (finished w0 16)) with (files w0).
    change (dirs (finished w0 16)) with (dirs w0).
    split.
    + rewrite Hfiles. by apply written_twice.
    + rewrite Hdirs. apply (anti_symm (⊆)); set_solver.
  - left. change (dirs (finished w0 16)) with (dirs w0). rewrite Hdirs. set_solver.
  - change (files (finished w0 16)) with (files w0).
    rewrite Hfiles, written_notin; [done|].
    rewrite Hpaths. apply tilemap_not_output.
  - done.
Qed.

(** *** Putting the tiles back together *)

Lemma paste_tiles_shape img cv cs :
  image_ok cv →
  image_ok (paste_tiles img cv cs)
  ∧ width (paste_tiles img cv cs) = width cv
  ∧ height (paste_tiles img cv cs) = height cv.
Proof.
  revert cv. induction cs as [|c cs IH]; intros cv Hok; [done|]; simpl.
  destruct (IH (paste blank cv (tile_at img c.1 c.2)
                  (c.2 * (width img // 4)) (c.1 * (height img // 4))))
    as (? & ? & ?); [by apply paste_ok|done].
Qed.

(** A position covered by one of the pasted tiles, or already right on the
    canvas, shows the source pixel afterwards. *)
Lemma paste_tiles_pixel img cv cs x y :
  image_ok img → image_ok cv →
  width cv = width img → height cv = height img →
  Forall (λ c, 0 ≤ c.1 < 4 ∧ 0 ≤ c.2 < 4) cs →
  0 ≤ x < width img → 0 ≤ y < height img →
  (∃ c, c ∈ cs
        ∧ c.2 * (width img // 4) ≤ x < c.2 * (width img // 4) + width img // 4
        ∧ c.1 * (height img // 4) ≤ y < c.1 * (height img // 4) + height img // 4)
  ∨ pixel_at cv x y = pixel_at img x y →
  pixel_at (paste_tiles img cv cs) x y = pixel_at img x y.
Proof.
  intros Hok. revert cv.
  induction cs as [|[row col] cs IH]; intros cv Hcv HW HH Hcs Hx Hy Hwhy.
  - destruct Hwhy as [(c & Hc & _)|Heq]; [by apply elem_of_nil in Hc|done].
  - apply Forall_cons in Hcs as [[Hr Hc] Hcs]. simpl in Hr, Hc.
    simpl. apply IH; [by apply paste_ok|done|done|done|done|done|].
    rewrite pixel_at_paste by (done || lia). cbn [fst snd].
    destruct (decide ((col * (width img // 4) ≤ x < col * (width img // 4) + width img // 4)
                      ∧ (row * (height img // 4) ≤ y
                         < row * (height img // 4) + height img // 4)))
      as [[Hcx Hcy]|Hout].
    + right.
      destruct (pixel_at_tile img row col (x - col * (width img // 4))
                  (y - row * (height img // 4)) Hok Hr Hc) as (-> & _); [lia|lia|].
      replace (col * (width img // 4) + (x - col * (width img // 4))) with x by lia.
      replace (row * (height img // 4) + (y - row * (height img // 4))) with y by lia.
      by destruct (pixel_at_inside img x y Hok Hx Hy) as [p ->].
    + rewrite (pixel_at_outside (tile_at img row col)).
      * destruct Hwhy as [(c & Hin & Hcx & Hcy)|Heq]; [|by right].
        apply elem_of_cons in Hin as [->|Hin]; [|left; by exists c].
        simpl in Hcx, Hcy. tauto.
      * destruct Hok as (HW0 & HH0 & _).
        rewrite tile_at_width, tile_at_height by done. lia.
Qed.

(** With W and H divisible by 4, pasting the sixteen tiles onto a blank
    canvas of the size of the source gives the source back. *)
Lemma paste_tiles_source img :
  image_ok img →
  width img `mod` 4 = 0 → height img `mod` 4 = 0 →
  paste_tiles img (new_image blank (width img) (height img)) cells = img.
Proof.
  intros Hok HW HH. pose proof Hok as (HW0 & HH0 & _).
  assert (image_ok (new_image blank (width img) (height img))) as Hcv
    by (apply raster_ok; lia).
  destruct (paste_tiles_shape img _ cells Hcv) as (Hok' & Hw' & Hh').
  change (width (new_image _ ?a _)) with (Z.max 0 a) in Hw'.
  change (height (new_image _ _ ?a)) with (Z.max 0 a) in Hh'.
  apply image_ext; [done|done|lia|lia|].
  intros x y Hx Hy. rewrite Hw' in Hx. rewrite Hh' in Hy.
  apply paste_tiles_pixel; [done|done|simpl; lia|simpl; lia| |lia|lia|].
  { apply Forall_forall. intros [r c] Hin.
    apply list_elem_of_lookup in Hin as [k Hk].
    apply cells_lookup_inv in Hk. simpl; lia. }
  left.
  pose proof (Z.div_mod (width img) 4 ltac:(lia)) as HWd.
  pose proof (Z.div_mod (height img) 4 ltac:(lia)) as HHd.
  set (tw := width img // 4) in *. set (th := height img // 4) in *.
  assert (∃ col, 0 ≤ col < 4 ∧ col * tw ≤ x < col * tw + tw) as (col & Hc & Hcx).
  { destruct (decide (x < tw)); [exists 0; lia|].
    destruct (decide (x < 2 * tw)); [exists 1; lia|].
    destruct (decide (x < 3 * tw)); [exists 2; lia|exists 3; lia]. }
  assert (∃ row, 0 ≤ row < 4 ∧ row * th ≤ y < row * th + th) as (row & Hr & Hry).
  { destruct (decide (y < th)); [exists 0; lia|].
    destruct (decide (y < 2 * th)); [exists 1; lia|].
    destruct (decide (y < 3 * th)); [exists 2; lia|exists 3; lia]. }
  exists (row, col). split; [|done].
  destruct (cells_lookup row col Hr Hc) as [Hin _].
  by eapply list_elem_of_lookup_2.
Qed.

(** C3. With a lossless codec and W and H divisible by 4, pasting the
    sixteen tiles a good run wrote back onto a blank W x H canvas in
    row-major order, the tile of cell (row, col) at offset
    (col * W/4, row * H/4), gives exactly the source image. *)
Theorem C3_reassemble w w' img :
  (∀ t b, image_ok t → encode t = Some b → decode b = Some t) →
  loads w img → main w = (Done (), w') →
  width img `mod` 4 = 0 → height img `mod` 4 = 0 →
  reassemble w' (width img) (height img) = Some img.
Proof.
  intros Hlossless Hload Hrun HW HH.
  pose proof (loads_ok w img Hload) as Hok.
  rewrite <- (paste_tiles_source img Hok HW HH) at 3.
  unfold_reassemble.
  assert (Forall (λ c, 0 ≤ c.1 < 4 ∧ 0 ≤ c.2 < 4) cells) as Hcs.
  { apply Forall_forall. intros [r c] Hin.
    apply list_elem_of_lookup in Hin as [k Hk].
    apply cells_lookup_inv in Hk. simpl; lia. }
  revert Hcs. generalize (new_image blank (width img) (height img)).
  generalize cells. intros cs. induction cs as [|[row col] cs IH]; intros cv Hcs.
  - done.
  - apply Forall_cons in Hcs as [[Hr Hc] Hcs]. simpl in Hr, Hc.
    simpl. rewrite <- IH by done. f_equal.
    destruct (main_Done_holds w w' img row col Hload Hrun Hr Hc)
      as (name & b & Hn & Hb & Henc).
    unfold_reassemble. rewrite Hn; simpl. rewrite Hb; simpl.
    by rewrite (Hlossless _ _ (crop_ok blank img _) Henc).
Qed.

(** C6 (as amended). For a 1024x1024 source image, when nothing stands
    in the way, the tile size is 256x256 and the run ends well; it has
    written the sixteen files tile_brick_wall.png ... tile_dark_concrete.png,
    each holding a 256x256 image; pixel (0,0) of tile_brick_wall.png is
    pixel (0,0) of the source, and pixel (0,0) of tile_bones.png (row 1,
    column 3) is pixel (768, 256) of the source: left = 3*256, top = 1*256. *)
Theorem C6_scenario_1024 w img :
  can_mkdir w → loads w img →
  (∀ row col, 0 ≤ row < 4 → 0 ≤ col < 4 → save_allowed w img row col) →
  width img = 1024 → height img = 1024 →
  width img // 4 = 256 ∧ height img // 4 = 256
  ∧ ∃ w', main w = (Done (), w')
    ∧ "Tile size: 256x256" ∈ stdout w'
    ∧ dom (files w') = dom (files w) ∪ list_to_set output_paths
    ∧ output_paths =
        (λ name, output_dir +:+ "/tile_" +:+ name +:+ ".png") <$>
          ["brick_wall"; "cracked_stone"; "bloodstained"; "dirt_gravel";
           "mossy_stone"; "rune_circle"; "dark_vortex"; "bones";
           "lava_cracks"; "frozen_ice"; "wooden_planks"; "metal_grate";
           "spike_trap"; "toxic_slime"; "corrupted_stone"; "dark_concrete"]
    ∧ (∀ row col, 0 ≤ row < 4 → 0 ≤ col < 4 →
         ∃ tile, holds_tile w' row col tile ∧ size tile = (256, 256))
    ∧ origin_shows w' "brick_wall" 256 256 img 0 0
    ∧ origin_shows w' "bones" 256 256 img 768 256.
Proof.
  intros Hdir Hload Hall HW HH.
  pose proof (loads_ok w img Hload) as Hok.
  assert (width img // 4 = 256) as Htw by (by rewrite HW).
  assert (height img // 4 = 256) as Hth by (by rewrite HH).
  split; [done|]. split; [done|].
  destruct (main_allowed w img Hdir Hload Hall) as [w' Hrun].
  exists w'. split; [done|].
  assert (∀ row col, 0 ≤ row < 4 → 0 ≤ col < 4 →
            size (tile_at img row col) = (256, 256)) as Hsize.
  { intros row col _ _. rewrite tile_at_size by lia. by rewrite Htw, Hth. }
  split; [|split; [|split; [reflexivity|split; [|split]]]].
  - pose proof (main_Done_tile_line w w' img Hload Hrun) as Hline.
    by rewrite Htw, Hth in Hline.
  - by apply (main_Done_dom w w' img).
  - intros row col Hr Hc. exists (tile_at img row col).
    split; [by apply (main_Done_holds w w' img)|by apply Hsize].
  - destruct (main_Done_holds w w' img 0 0 Hload Hrun) as (name & b & Hn & Hb & He);
      [lia|lia|]. injection Hn as <-.
    exists (tile_at img 0 0), b. repeat split; [done|done|apply Hsize; lia|].
    destruct (pixel_at_tile img 0 0 0 0 Hok) as (-> & _); [lia|lia|lia|lia|].
    f_equal; lia.
  - destruct (main_Done_holds w w' img 1 3 Hload Hrun) as (name & b & Hn & Hb & He);
      [lia|lia|]. injection Hn as <-.
    exists (tile_at img 1 3), b. repeat split; [done|done|apply Hsize; lia|].
    destruct (pixel_at_tile img 1 3 0 0 Hok) as (-> & _); [lia|lia|lia|lia|].
    f_equal; lia.
Qed.

(** *** Every run, whatever its outcome *)

Lemma can_mkdir_dec w : can_mkdir w ∨ ¬ can_mkdir w.
Proof.
  clear decode_ok. unfold can_mkdir.
  destruct (decide (output_dir ∈ dirs w)); [by left; left|].
  destruct (files w !! output_dir); [right; intros [?|[? _]]; done|].
  destruct (decide (output_dir ∈ locked w)); [|by left; right].
  right; intros [?|[_ ?]]; done.
Qed.

Lemma makedirs_refused_kind w :
  ¬ can_mkdir w →
  ∃ e, (e = FileExistsError ∨ e = PermissionError)
       ∧ makedirs output_dir w = (Raised e, w).
Proof.
  clear decode_ok. intros Hno. unfold makedirs, can_mkdir in *.
  case_bool_decide as Hd; [tauto|].
  case_bool_decide as Hf; [eexists; split; [by left|done]|].
  case_bool_decide as Hl; [eexists; split; [by right|done]|].
  destruct Hno. right. split; [|done].
  destruct (files w !! output_dir) eqn:E; [|done]. destruct Hf. by eexists.
Qed.

(** With the directory there, the tilemap is the next thing that can go
    wrong, and the error says how. *)
Lemma main_no_image_kind w :
  can_mkdir w → (∀ img, ¬ loads w img) →
  main w =
    (Raised (match files w !! tilemap_path with
             | Some _ => UnidentifiedImageError
             | None => FileNotFoundError
             end),
     mkWorld ({[output_dir]} ∪ dirs w) (files w) (locked w) (stdout w)).
Proof.
  clear decode_ok. intros Hdir Hno. unfold_main.
  rewrite run_bind_eq, makedirs_ok by done.
  rewrite run_bind_eq. unfold Image_open at 1. cbn [files].
  destruct (files w !! tilemap_path) as [b|] eqn:Hb; [|done].
  destruct (decode b) as [img|] eqn:Hd; [|done].
  destruct (Hno img). by exists b.
Qed.

Lemma loads_dec w : (∃ img, loads w img) ∨ (∀ img, ¬ loads w img).
Proof.
  clear decode_ok.
  destruct (files w !! tilemap_path) as [b|] eqn:Hb.
  - destruct (decode b) as [img|] eqn:Hd.
    + left. exists img, b. done.
    + right. intros img (b' & Hb' & Hd'). congruence.
  - right. intros img (b' & Hb' & _). congruence.
Qed.

(** With the directory there and the tilemap decoded, the run writes the
    tiles of the first cells, as many as go through, and stops at the first
    refusal or after the sixteenth. *)
Lemma main_loaded w img :
  can_mkdir w → loads w img →
  ∃ ws, Forall2 (λ c pb, cell_write (locked w) img c = inr pb)
                (take (length ws) cells) ws
        ∧ ws.*1 = take (length ws) output_paths
        ∧ NoDup (ws.*1)
        ∧ writes_of (locked w) img cells
          = (ws, (writes_of (locked w) img cells).2)
        ∧ ((length ws = 16%nat
            ∧ (writes_of (locked w) img cells).2 = None
            ∧ main w = (Done (), finished (foldl saved (started w img) ws) 16))
           ∨ ((length ws < 16)%nat
              ∧ ∃ e c, cells !! length ws = Some c
                       ∧ cell_write (locked w) img c = inl e
                       ∧ (writes_of (locked w) img cells).2 = Some e
                       ∧ main w = (Raised e, foldl saved (started w img) ws))).
Proof.
  clear decode_ok. intros Hdir (b & Hb & Hd).
  rewrite (main_run w b img) by done.
  destruct (writes_of_spec (locked w) img cells) as [Hall Hend].
  destruct (writes_of (locked w) img cells) as [ws r]; cbn [fst snd] in *.
  exists ws. split; [done|].
  assert (ws.*1 = take (length ws) output_paths) as Hpaths
    by (by rewrite (writes_paths _ _ _ _ Hall), <- cells_paths, fmap_take).
  split; [done|]. split.
  { rewrite Hpaths.
    exact (sublist_NoDup _ _ output_paths_NoDup (sublist_take _ _)). }
  split; [done|]. destruct r as [e|].
  - right. destruct Hend as (c & Hc & He).
    split; [by apply lookup_lt_Some in Hc|]. by exists e, c.
  - left. done.
Qed.

Lemma cell_write_inl_kind L img c e :
  c ∈ cells → cell_write L img c = inl e →
  e = PermissionError ∨ e = EncoderError.
Proof.
  clear decode_ok. intros Hin He.
  apply list_elem_of_lookup in Hin as [k Hk]. destruct c as [row col].
  apply cells_lookup_inv in Hk as (Hr & Hc & _).
  destruct (cells_lookup row col Hr Hc) as (_ & name & Hn & _).
  unfold_cell_write_in He; cbn [fst snd] in He. rewrite Hn in He.
  case_bool_decide; [left; congruence|].
  destruct (encode _); [done|right; congruence].
Qed.

(** *** More properties of the script *)



(** X3. Once the directory is there and the tilemap decoded, every run,
    good or not, leaves a row-major prefix behind: for some k <= 16 the
    files of the first k cells hold their tiles, no other file changed, the
    console shows the two size lines and exactly those k "Saved" lines, and
    the run ends well, with the closing line, exactly when k = 16. *)
Theorem X3_prefix_on_disk w img :
  can_mkdir w → loads w img →
  ∃ k r w',
    (k ≤ 16)%nat ∧ main w = (r, w')
    ∧ (r = Done () ↔ k = 16%nat)
    ∧ (∀ j row col, (j < k)%nat → cells !! j = Some (row, col) →
         holds_tile w' row col (tile_at img row col))
    ∧ (∀ p, p ∉ take k output_paths → files w' !! p = files w !! p)
    ∧ stdout w' =
        stdout (started w img)
        ++ ((λ p, "Saved: " +:+ p) <$> take k output_paths)
        ++ (if decide (k = 16%nat)
            then [newline +:+ "Successfully split tilemap into 16 tiles!"]
            else []).
Proof.
  clear decode_ok. intros Hdir Hload.
  destruct (main_loaded w img Hdir Hload)
    as (ws & Hall & Hpaths & Hnd & _ & Hend).
  assert (∀ j row col, (j < length ws)%nat → cells !! j = Some (row, col) →
            holds_tile (foldl saved (started w img) ws) row col
                       (tile_at img row col)) as Hheld.
  { intros j row col Hj Hcell.
    assert (take (length ws) cells !! j = Some (row, col)) as Hin
      by (by rewrite lookup_take_lt).
    destruct (Forall2_lookup_l _ _ _ _ _ Hall Hin) as ([p bs] & Hws & Hw).
    apply cell_write_inr in Hw as (name & Hn & -> & _ & Henc);
      cbn [fst snd] in Hn, Henc.
    exists name, bs. repeat split; [done| |done].
    rewrite files_saved. apply written_in; [done|].
    by eapply list_elem_of_lookup_2. }
  exists (length ws).
  destruct Hend as [(Hlen & _ & Hrun)|(Hlen & e & c & _ & _ & _ & Hrun)];
    eexists _, _; (split; [lia|]); (split; [exact Hrun|]).
  - split; [done|]. split; [|split].
    + intros j row col Hj Hcell.
      destruct (Hheld j row col Hj Hcell) as (name & b & ? & ? & ?).
      by exists name, b.
    + intros p Hp. cbn [finished files]. rewrite files_saved.
      apply written_notin. by rewrite Hpaths.
    + cbn [finished stdout]. rewrite stdout_saved, Hpaths.
      rewrite decide_True by done. by rewrite <- app_assoc.
  - split; [split; [done|lia]|]. split; [done|]. split.
    + intros p Hp. rewrite files_saved. apply written_notin. by rewrite Hpaths.
    + rewrite stdout_saved, Hpaths, decide_False by lia. by rewrite app_nil_r.
Qed.

(** X4. Running the script again on the world any run left behind, good or
    failed, ends the same way and leaves the files and directories as the
    first run left them. *)
Theorem X4_rerun_same w :
  ∃ w2, main (main w).2 = ((main w).1, w2)
        ∧ files w2 = files (main w).2
        ∧ dirs w2 = dirs (main w).2
        ∧ locked w2 = locked (main w).2.
Proof.
  clear decode_ok.
  destruct (can_mkdir_dec w) as [Hdir|Hdir].
  - destruct (loads_dec w) as [[img [b [Hb Hd]]]|Hno].
    + destruct (main_loaded w img Hdir (ex_intro _ b (conj Hb Hd)))
        as (ws & _ & Hpaths & Hnd & Hwr & Hend).
      set (w0 := foldl saved (started w img) ws).
      assert (files w0 = written (files w) ws) as Hfiles
        by (unfold w0; by rewrite files_saved).
      assert (dirs w0 = {[output_dir]} ∪ dirs w) as Hdirs
        by (unfold w0; by rewrite dirs_saved).
      assert (locked w0 = locked w) as Hlocked
        by (unfold w0; by rewrite locked_saved).
      assert (files w0 !! tilemap_path = Some b) as Hb0.
      { rewrite Hfiles, written_notin; [done|]. rewrite Hpaths. intros Hin.
        by apply tilemap_not_output, (subseteq_take (length ws) output_paths). }
      assert (can_mkdir w0) as Hdir0 by (left; rewrite Hdirs; set_solver).
      assert (∀ w1, files w1 = files w0 → dirs w1 = dirs w0 →
                locked w1 = locked w0 →
                files (foldl saved (started w1 img) ws) = files w1
                ∧ dirs (foldl saved (started w1 img) ws) = dirs w1
                ∧ locked (foldl saved (started w1 img) ws) = locked w1) as Hagain.
      { intros w1 Hf1 Hd1 Hl1. rewrite files_saved, dirs_saved, locked_saved.
        cbn [started files dirs locked]. split; [|split; [|done]].
        - rewrite Hf1, Hfiles. by apply written_twice.
        - rewrite Hd1, Hdirs. apply (anti_symm (⊆)); set_solver. }
      destruct Hend as [(_ & Hnone & Hrun)|(_ & e & c & _ & _ & Hsome & Hrun)];
        rewrite Hrun; cbn [fst snd]; fold w0.
      * rewrite (main_run (finished w0 16) b img); [|done..].
        change (locked (finished w0 16)) with (locked w0).
        rewrite Hlocked, Hnone, Hwr; cbn [fst].
        eexists; split; [reflexivity|].
        destruct (Hagain (finished w0 16) eq_refl eq_refl eq_refl) as (H1 & H2 & H3).
        split; [exact H1|]. split; [exact H2|exact (eq_trans H3 Hlocked)].
      * rewrite (main_run w0 b img); [|done..].
        rewrite Hlocked, Hsome, Hwr; cbn [fst].
        eexists; split; [reflexivity|].
        destruct (Hagain w0 eq_refl eq_refl eq_refl) as (H1 & H2 & H3).
        split; [exact H1|]. split; [exact H2|exact (eq_trans H3 Hlocked)].
    + rewrite (main_no_image_kind w Hdir Hno); cbn [fst snd].
      rewrite main_no_image_kind; cbn [files dirs locked stdout].
      * eexists; split; [reflexivity|]. cbn [files dirs locked].
        repeat split. apply (anti_symm (⊆)); set_solver.
      * left. cbn [dirs]. set_solver.
      * intros img (b & Hb & Hd). apply (Hno img). by exists b.
  - destruct (main_no_dir w Hdir) as (e & He).
    rewrite He; cbn [fst snd]. exists w. by rewrite He.
Qed.

(** X5. No run ever raises [IndexError]: the lookups in the name table are
    always in range, so every error of the script comes from the file
    system or the imaging library. *)
Theorem X5_never_index_error w : (main w).1 ≠ Raised IndexError.
Proof.
  clear decode_ok.
  destruct (can_mkdir_dec w) as [Hdir|Hdir].
  - destruct (loads_dec w) as [[img Hload]|Hno].
    + destruct (main_loaded w img Hdir Hload)
        as (ws & _ & _ & _ & _ & [(_ & _ & ->)|(_ & e & c & Hc & He & _ & ->)]);
        cbn [fst]; [done|].
      destruct (cell_write_inl_kind (locked w) img c e) as [-> | ->];
        [by eapply list_elem_of_lookup_2|done|done|done].
    + rewrite (main_no_image_kind w Hdir Hno); cbn [fst].
      by destruct (files w !! tilemap_path).
  - destruct (makedirs_refused_kind w Hdir) as (e & Hkind & He).
    unfold_main. rewrite run_bind_eq, He; cbn [fst].
    by destruct Hkind as [-> | ->].
Qed.


(** X7. The crop boxes of two different cells of the grid never share a
    position: no source pixel goes into two tiles. *)
Theorem X7_boxes_disjoint tw th row col row' col' l t r b l' t' r' b' x y :
  0 ≤ row < 4 → 0 ≤ col < 4 → 0 ≤ row' < 4 → 0 ≤ col' < 4 →
  (row, col) ≠ (row', col') →
  crop_box tw th row col = (l, t, r, b) →
  crop_box tw th row' col' = (l', t', r', b') →
  ¬ ((l ≤ x < r ∧ t ≤ y < b) ∧ (l' ≤ x < r' ∧ t' ≤ y < b')).
Proof.
  clear decode_ok. rewrite !crop_box_eq.
  intros Hr Hc Hr' Hc' Hne [= <- <- <- <-] [= <- <- <- <-] [[Hx Hy] [Hx' Hy']].
  assert (row = row') as <-.
  { assert (row = 0 ∨ row = 1 ∨ row = 2 ∨ row = 3) as Hrow by lia.
    assert (row' = 0 ∨ row' = 1 ∨ row' = 2 ∨ row' = 3) as Hrow' by lia.
    destruct Hrow as [-> | [-> | [-> | ->]]], Hrow' as [-> | [-> | [-> | ->]]]; lia. }
  assert (col = col') as <-.
  { assert (col = 0 ∨ col = 1 ∨ col = 2 ∨ col = 3) as Hcol by lia.
    assert (col' = 0 ∨ col' = 1 ∨ col' = 2 ∨ col' = 3) as Hcol' by lia.
    destruct Hcol as [-> | [-> | [-> | ->]]], Hcol' as [-> | [-> | [-> | ->]]]; lia. }
  done.
Qed.

(** X8. Every source pixel left of column 4 * (W div 4) and above row
    4 * (H div 4) can be found again: pixel (x, y) of the source is pixel
    (x mod tw, y mod th) of the tile of cell (y div th, x div tw), where
    tw = W div 4 and th = H div 4. *)
Theorem X8_pixel_found img x y :
  image_ok img →
  0 ≤ x < 4 * (width img // 4) → 0 ≤ y < 4 * (height img // 4) →
  0 ≤ y // (height img // 4) < 4
  ∧ 0 ≤ x // (width img // 4) < 4
  ∧ is_Some (pixel_at img x y)
  ∧ pixel_at (tile_at img (y // (height img // 4)) (x // (width img // 4)))
             (x `mod` (width img // 4)) (y `mod` (height img // 4))
    = pixel_at img x y.
Proof.
  clear decode_ok. intros Hok Hx Hy. pose proof Hok as (HW & HH & _).
  pose proof (Z.mul_div_le (width img) 4 ltac:(lia)).
  pose proof (Z.mul_div_le (height img) 4 ltac:(lia)).
  set (tw := width img // 4) in *. set (th := height img // 4) in *.
  assert (0 < tw) as Htw by lia. assert (0 < th) as Hth by lia.
  pose proof (Z.div_pos x tw ltac:(lia) Htw).
  pose proof (Z.div_pos y th ltac:(lia) Hth).
  pose proof (Z.div_lt_upper_bound x tw 4 Htw ltac:(lia)).
  pose proof (Z.div_lt_upper_bound y th 4 Hth ltac:(lia)).
  pose proof (Z.mod_pos_bound x tw Htw). pose proof (Z.mod_pos_bound y th Hth).
  pose proof (Z.div_mod x tw ltac:(lia)) as Hxd.
  pose proof (Z.div_mod y th ltac:(lia)) as Hyd.
  split; [lia|]. split; [lia|].
  split; [apply pixel_at_inside; [done|lia|lia]|].
  destruct (pixel_at_tile img (y // th) (x // tw) (x `mod` tw) (y `mod` th) Hok)
    as (-> & _); [lia|lia|done|done|].
  fold tw th. f_equal; lia.
Qed.

(** X9. An image narrower or lower than 4 pixels gives tiles without a
    single pixel: the tile size has a 0 in it and every source pixel is
    dropped. *)
Theorem X9_small_image_empty_tiles img row col :
  image_ok img → width img < 4 ∨ height img < 4 →
  (width (tile_at img row col) = 0 ∨ height (tile_at img row col) = 0)
  ∧ ∀ x y, pixel_at (tile_at img row col) x y = None.
Proof.
  clear decode_ok. intros (HW & HH & _) Hsmall.
  assert (width (tile_at img row col) = 0 ∨ height (tile_at img row col) = 0)
    as Hzero.
  { rewrite tile_at_width, tile_at_height by done.
    destruct Hsmall; [left|right]; apply Z.div_small; lia. }
  split; [done|]. intros x y. apply pixel_at_outside. lia.
Qed.

(** X10. What a good run leaves at the sixteen output paths depends on the
    source image alone: two good runs on worlds that hold the same image end
    with the same bytes there, whatever was at those paths before. *)
Theorem X10_stale_tiles_replaced w1 w1' w2 w2' img p :
  loads w1 img → loads w2 img →
  main w1 = (Done (), w1') → main w2 = (Done (), w2') →
  p ∈ output_paths →
  is_Some (files w1' !! p) ∧ files w1' !! p = files w2' !! p.
Proof.
  clear decode_ok. intros Hl1 Hl2 Hrun1 Hrun2 Hp.
  destruct (main_Done w1 w1' img Hl1 Hrun1) as (ws1 & _ & Hall1 & Hpaths1 & ->).
  destruct (main_Done w2 w2' img Hl2 Hrun2) as (ws2 & _ & Hall2 & Hpaths2 & ->).
  cbn [finished files]. rewrite !files_saved. cbn [started files].
  rewrite <- Hpaths1 in Hp.
  apply list_elem_of_fmap in Hp as ([q b] & -> & Hin); cbn [fst].
  apply list_elem_of_lookup in Hin as [k Hk].
  destruct (Forall2_lookup_r _ _ _ _ _ Hall1 Hk) as (c & Hcell & Hw1).
  destruct (Forall2_lookup_l _ _ _ _ _ Hall2 Hcell) as ([q' b'] & Hk' & Hw2).
  apply cell_write_inr in Hw1 as (name & Hn & -> & _ & Henc).
  apply cell_write_inr in Hw2 as (name' & Hn' & -> & _ & Henc').
  assert (name' = name) as -> by congruence.
  assert (b' = b) as -> by congruence.
  rewrite (written_in _ ws1 (output_path name) b);
    [|rewrite Hpaths1; apply output_paths_NoDup|by eapply list_elem_of_lookup_2].
  rewrite (written_in _ ws2 (output_path name) b);
    [|rewrite Hpaths2; apply output_paths_NoDup|by eapply list_elem_of_lookup_2].
  split; [by eexists|done].
Qed.
End ScriptFacts.

(** ** The script on the raw codec *)

Lemma raw_decode_ok (b img : Image Z) : raw_decode b = Some img → image_ok img.
Proof. unfold raw_decode. case_bool_decide; [|done]. by intros [= <-]. Qed.

Lemma raw_lossless (t b : Image Z) :
  image_ok t → raw_encode t = Some b → raw_decode b = Some t.
Proof.
  intros Hok [= <-]. unfold raw_decode. by rewrite bool_decide_eq_true_2.
Qed.

Lemma raw_loads (img : Image Z) :
  image_ok img → loads raw_decode (world_with img) img.
Proof.
  intros Hok. exists img. split; [apply lookup_singleton_eq|].
  unfold raw_decode. by rewrite bool_decide_eq_true_2.
Qed.

Lemma raw_can_mkdir (img : Image Z) : can_mkdir (world_with img).
Proof.
  right. split; [|apply not_elem_of_empty].
  apply lookup_singleton_ne. refine (bool_decide_unpack _ _). by vm_compute.
Qed.

Lemma raw_save_allowed (img : Image Z) row col :
  0 ≤ row < 4 → 0 ≤ col < 4 →
  save_allowed 0 raw_encode (world_with img) img row col.
Proof.
  intros Hr Hc. destruct (cells_lookup row col Hr Hc) as (_ & name & Hn & _).
  exists name. split; [done|]. split; [apply not_elem_of_empty|by eexists].
Qed.

(** ** The properties at concrete inputs *)

Lemma run_ends {Bytes A} (r : Outcome A * World Bytes) (a : A) :
  r.1 = Done a → r = (Done a, r.2).
Proof. destruct r as [o w]; simpl. by intros ->. Defined.

Lemma world8_runs : run_raw world8 = (Done (), (run_raw world8).2).
Proof. apply run_ends. vm_compute. reflexivity. Defined.

(** A few runs, evaluated. *)

Example path_join_plain : path_join "out" "tile_a.png" = "out/tile_a.png".
Proof. reflexivity. Qed.

Example path_join_slash : path_join "out/" "tile_a.png" = "out/tile_a.png".
Proof. reflexivity. Qed.

Example world9_size_lines :
  take 2 (stdout (run_raw world9).2) = ["Image size: 9x8"; "Tile size: 2x2"].
Proof. vm_compute. reflexivity. Qed.

Example world9_bones :
  files (run_raw world9).2 !! output_path "bones"
  = Some (mkImage 2 2 [[2006; 2007]; [3006; 3007]]).
Proof. vm_compute. reflexivity. Qed.

Example world9_last_column_dropped :
  pixel_at (ramp 9 8) 8 0 = Some 8
  ∧ pixel_at (tile_at 0 (ramp 9 8) 0 3) 1 0 = Some 7
  ∧ pixel_at (tile_at 0 (ramp 9 8) 0 3) 2 0 = None.
Proof. vm_compute. done. Qed.

Example bare_world_raises : (run_raw bare_world).1 = Raised FileNotFoundError.
Proof. vm_compute. reflexivity. Qed.

Example bones_locked_raises :
  (run_raw bones_locked).1 = Raised PermissionError
  ∧ length (stdout (run_raw bones_locked).2) = 9%nat
  ∧ files (run_raw bones_locked).2 !! output_path "bones" = None
  ∧ files (run_raw bones_locked).2 !! output_path "lava_cracks" = None
  ∧ is_Some (files (run_raw bones_locked).2 !! output_path "dark_vortex").
Proof. vm_compute. repeat split; eauto. Qed.

Lemma world8_loads : loads raw_decode world8 (ramp 8 8).
Proof. exists (ramp 8 8). split; vm_compute; reflexivity. Defined.

Lemma C1_witness :
  holds_tile raw_encode (run_raw world8).2 1 3 (crop 0 (ramp 8 8) (6, 2, 8, 4)).
Proof.
  refine (proj2 (proj2 (proj2
    (C1_crop_rectangles 0 raw_decode raw_encode world8 (run_raw world8).2
       (ramp 8 8) 1 3 world8_loads world8_runs _ _)))); lia.
Defined.

Lemma C2_witness :
  dom (files (run_raw world8).2) = dom (files world8) ∪ list_to_set output_paths.
Proof.
  refine (proj1 (proj2 (proj2 (proj2
    (C2_sixteen_files 0 raw_decode raw_encode raw_decode_ok world8
       (run_raw world8).2 (ramp 8 8) world8_loads world8_runs _ _)))));
    reflexivity.
Defined.

Lemma C3_witness :
  reassemble 0 raw_decode (run_raw world8).2 8 8 = Some (ramp 8 8).
Proof.
  refine (C3_reassemble 0 raw_decode raw_encode raw_decode_ok world8
            (run_raw world8).2 (ramp 8 8) raw_lossless world8_loads world8_runs _ _);
    reflexivity.
Defined.

Lemma C4_witness :
  ∃ w2, run_raw (run_raw world8).2 = (Done (), w2)
        ∧ files w2 = files (run_raw world8).2
        ∧ dirs w2 = dirs (run_raw world8).2.
Proof.
  exact (C4_second_run 0 raw_decode raw_encode world8 (run_raw world8).2 world8_runs).
Defined.


Lemma C6_witness :
  ∃ w', run_raw world1024 = (Done (), w')
        ∧ origin_shows raw_encode w' "bones" 256 256 (ramp 1024 1024) 768 256.
Proof.
  destruct (C6_scenario_1024 0 raw_decode raw_encode raw_decode_ok world1024
              (ramp 1024 1024))
    as (_ & _ & w' & Hrun & _ & _ & _ & _ & _ & Hbones).
  - apply raw_can_mkdir.
  - apply raw_loads, raster_ok; lia.
  - apply raw_save_allowed.
  - reflexivity.
  - reflexivity.
  - exists w'. split; [exact Hrun|exact Hbones].
Defined.


Lemma C8_witness :
  ∃ e w', run_raw bones_locked = (Raised e, w')
          ∧ ∀ p, p ∉ take 7 output_paths → files w' !! p = files bones_locked !! p.
Proof.
  destruct (C8_stops_at_refused_save 0 raw_decode raw_encode bones_locked
              (ramp 8 8) 7 1 3)
    as (e & w' & Hrun & _ & Hrest & _).
  - right. split; [vm_compute; reflexivity|].
    refine (bool_decide_unpack _ _). by vm_compute.
  - exists (ramp 8 8). split; vm_compute; reflexivity.
  - reflexivity.
  - intros j r c Hj Hcell.
    destruct (cells_lookup_inv j r c Hcell) as (Hr & Hc & _).
    destruct (cells_lookup r c Hr Hc) as (Hcell' & name & Hn & Hp).
    exists name. split; [exact Hn|]. split; [|by eexists].
    assert (j = Z.to_nat (4 * r + c)) as Hjk by (by apply cells_lookup_inv).
    rewrite <- Hjk in Hp. intros Hin.
    apply elem_of_list_to_set, list_elem_of_singleton in Hin.
    assert (output_paths !! 7%nat = Some (output_path name)) as H7
      by (rewrite Hin; reflexivity).
    pose proof (NoDup_lookup _ _ _ _ output_paths_NoDup Hp H7). lia.
  - exists "bones". split; [reflexivity|]. left.
    apply elem_of_list_to_set, list_elem_of_singleton. reflexivity.
  - exists e, w'. split; [exact Hrun|exact Hrest].
Defined.

Lemma C9_witness :
  stdout (run_raw world8).2 =
    ["Image size: 8x8"; "Tile size: 2x2"]
    ++ ((λ c, "Saved: " +:+ path_of c) <$> cells)
    ++ [newline +:+ "Successfully split tilemap into 16 tiles!"].
Proof.
  exact (proj1 (C9_console 0 raw_decode raw_encode world8 (run_raw world8).2
                  (ramp 8 8) world8_loads world8_runs)).
Defined.

Lemma C10_witness :
  ∃ left top right bottom,
    crop_box 2 2 1 3 = (left, top, right, bottom) ∧ right ≤ 8 ∧ bottom ≤ 8.
Proof.
  destruct (C10_crop_in_bounds (ramp 8 8) 1 3)
    as (l & t & r & b & Hbox & _ & _ & _ & Hr & _ & Hb & _);
    [simpl; lia | simpl; lia | lia | lia |].
  exists l, t, r, b. split; [exact Hbox|]. split; [exact Hr|exact Hb].
Defined.

(** On the raw codec, what tile_bones.png starts with after a good run
    on a 1024x1024 image is source pixel (768, 256) and nothing else. *)
Lemma raw_bones_origin (img : Image Z) w' x y :
  image_ok img → width img = 1024 → height img = 1024 →
  run_raw (world_with img) = (Done (), w') →
  origin_shows raw_encode w' "bones" 256 256 img x y →
  pixel_at img 768 256 = pixel_at img x y.
Proof.
  intros Hok HW HH Hrun (tile & b' & Hb' & Henc' & _ & <-).
  destruct (main_Done_holds 0 raw_decode raw_encode (world_with img) w' img
              1 3 (raw_loads img Hok) Hrun) as (name & b & Hn & Hb & Henc);
    [lia|lia|].
  assert (name = "bones") as -> by (injection Hn as <-; reflexivity).
  assert (tile = tile_at 0 img 1 3) as ->
    by (unfold raw_encode in Henc, Henc'; congruence).
  destruct (pixel_at_tile 0 img 1 3 0 0 Hok) as (-> & _);
    [lia|lia|by rewrite HW|by rewrite HH|].
  rewrite HW, HH. reflexivity.
Qed.

Lemma ramp_pixel w h x y :
  0 ≤ x < w → 0 ≤ y < h → pixel_at (ramp w h) x y = Some (1000 * y + x).
Proof. intros Hx Hy. unfold ramp. by rewrite pixel_at_raster. Qed.

(** C6, as first stated: pixel (0,0) of tile_bones.png would be pixel
    (0, 768) of the source.  On the 1024x1024 ramp, whose pixel (x, y) is
    1000 * y + x, the run ends well and tile_bones.png starts with the value
    256768 of source pixel (768, 256); source pixel (0, 768) is 768000, and
    source pixel (768, 0), the same pair read as (row, column), is 768. *)
Lemma C6_counterexample :
  can_mkdir world1024
  ∧ loads raw_decode world1024 (ramp 1024 1024)
  ∧ width (ramp 1024 1024) = 1024 ∧ height (ramp 1024 1024) = 1024
  ∧ ∃ w', run_raw world1024 = (Done (), w')
          ∧ ¬ origin_shows raw_encode w' "bones" 256 256 (ramp 1024 1024) 0 768
          ∧ ¬ origin_shows raw_encode w' "bones" 256 256 (ramp 1024 1024) 768 0.
Proof.
  assert (image_ok (ramp 1024 1024)) as Hok by (apply raster_ok; lia).
  split; [apply raw_can_mkdir|]. split; [by apply raw_loads|].
  split; [reflexivity|]. split; [reflexivity|].
  destruct (main_allowed 0 raw_decode raw_encode world1024 (ramp 1024 1024)
              (raw_can_mkdir _) (raw_loads _ Hok) (raw_save_allowed _)) as [w' Hrun].
  exists w'. split; [exact Hrun|].
  split; intros Heq%(raw_bones_origin _ _ _ _ Hok eq_refl eq_refl Hrun);
    rewrite !ramp_pixel in Heq by lia; discriminate Heq.
Qed.

(** ** The further properties at concrete inputs *)

Example stale_world_old_tile :
  files stale_world !! output_path "bones" = Some (ramp 1 1)
  ∧ files (run_raw stale_world).2 !! output_path "bones"
    = Some (mkImage 2 2 [[2006; 2007]; [3006; 3007]]).
Proof. vm_compute. done. Qed.


Lemma X3_witness :
  ∃ k r w', (k ≤ 16)%nat ∧ run_raw bones_locked = (r, w')
            ∧ (r = Done () ↔ k = 16%nat).
Proof.
  destruct (X3_prefix_on_disk 0 raw_decode raw_encode bones_locked (ramp 8 8))
    as (k & r & w' & Hk & Hrun & Hiff & _).
  - right. split; [vm_compute; reflexivity|].
    refine (bool_decide_unpack _ _). by vm_compute.
  - exists (ramp 8 8). split; vm_compute; reflexivity.
  - exists k, r, w'. split; [exact Hk|]. split; [exact Hrun|exact Hiff].
Defined.

Lemma X7_witness :
  ¬ ((6 ≤ 6 < 8 ∧ 2 ≤ 2 < 4) ∧ (4 ≤ 6 < 6 ∧ 2 ≤ 2 < 4)).
Proof.
  apply (X7_boxes_disjoint 2 2 1 3 1 2 6 2 8 4 4 2 6 4 6 2);
    try lia; try reflexivity. intros [= ].
Defined.

Lemma X8_witness :
  pixel_at (tile_at 0 (ramp 9 8) (3 // (8 // 4)) (7 // (9 // 4)))
           (7 `mod` (9 // 4)) (3 `mod` (8 // 4))
  = pixel_at (ramp 9 8) 7 3.
Proof.
  refine (proj2 (proj2 (proj2 (X8_pixel_found 0 (ramp 9 8) 7 3 _ _ _)))).
  - refine (bool_decide_unpack _ _). by vm_compute.
  - vm_compute. split; [discriminate|reflexivity].
  - vm_compute. split; [discriminate|reflexivity].
Defined.

Lemma X9_witness : pixel_at (tile_at 0 (ramp 3 8) 2 1) 0 0 = None.
Proof.
  refine (proj2 (X9_small_image_empty_tiles 0 (ramp 3 8) 2 1 _ _) 0 0).
  - refine (bool_decide_unpack _ _). by vm_compute.
  - left. reflexivity.
Defined.

Lemma X10_witness :
  is_Some (files (run_raw world8).2 !! output_path "bones")
  ∧ files (run_raw world8).2 !! output_path "bones"
    = files (run_raw stale_world).2 !! output_path "bones".
Proof.
  apply (X10_stale_tiles_replaced 0 raw_decode raw_encode
           world8 (run_raw world8).2 stale_world (run_raw stale_world).2
           (ramp 8 8) (output_path "bones")).
  - exact world8_loads.
  - exists (ramp 8 8). split; vm_compute; reflexivity.
  - exact world8_runs.
  - apply run_ends. vm_compute. reflexivity.
  - refine (bool_decide_unpack _ _). by vm_compute.
Defined.
